(** * SimpleCar-Planning: the MPC tracker

    A shallow embedding of [main] of [src/MPC_simulate.cpp]: the loading of
    the reference path, the symbolic vehicle model, the objects handed to
    the optimal-control toolkit ([Module Main], lines 13 to 179), and the
    start of the simulation and the writing of the two output files
    ([Module Run], lines 181 to 236).  The toolkit and the C++ stream
    library are not part of the repository.  The objects of the toolkit
    appear here as the plain data [main] builds ([Module ACADO]); what the
    toolkit computes from them is not modelled: the outcome of the
    simulation and the grids it reports are parameters ([Run.Toolkit]).
    The stream operations the program calls are in [Module Cxx]; the
    conversion between text and [double] is a parameter too
    ([Cxx.NumGet], [Run.NumPut]).  [include/ValidityChecker.h] declares a
    class without its member functions and is not modelled. *)

From Stdlib Require Import ZArith List Ascii String PrimFloat Uint63 Lia.
From Stdlib Require Import FloatOps SpecFloat DecimalString.
From stdpp Require Import base option list.
Import ListNotations.
Set Warnings "-inexact-float".

Open Scope Z_scope.

(** ** Machine numbers *)

(** A C++ [double] is an IEEE binary64 number. *)
Abbreviation double := PrimFloat.float.

Definition INT_MIN : Z := -2147483648.
Definition INT_MAX : Z := 2147483647.

(** The result of an [int] operation whose exact value is [z].  Signed
    overflow is undefined in C++: it has no result. *)
Definition int_result (z : Z) : option Z :=
  if (INT_MIN <=? z) && (z <=? INT_MAX) then Some z else None.

(** Conversion of an [int] to [double] (exact on 32-bit values). *)
Definition double_of_int (z : Z) : double :=
  if z <? 0 then PrimFloat.opp (PrimFloat.of_uint63 (Uint63.of_Z (- z)))
  else PrimFloat.of_uint63 (Uint63.of_Z z).

Definition EXIT_FAILURE : Z := 1.

(** [M_PI] of [math.h], 3.14159265358979323846. *)
Definition M_PI : double := 3.14159265358979323846%float.

(** The largest finite [double]. *)
Definition DBL_MAX : double := 1.7976931348623157e308%float.

(** ** The stream operations of the C++ library used by [main] *)

Module Cxx.

(** An input stream: the characters not yet consumed and two state bits. *)
Record istream := Istream {
  buf : list ascii;
  eofbit : bool;
  failbit : bool
}.

(** A stream freshly opened on [content] ([std::ifstream] on a file that
    could be opened, [std::istringstream] on a string). *)
Definition open (content : list ascii) : istream :=
  {| buf := content; eofbit := false; failbit := false |}.

Definition good (ins : istream) : bool :=
  negb (eofbit ins) && negb (failbit ins).

(** [if (ins)] and [while (ins)] test [!ins.fail()]. *)
Definition operator_bool (ins : istream) : bool := negb (failbit ins).

Definition setfail (ins : istream) : istream :=
  {| buf := buf ins; eofbit := eofbit ins; failbit := true |}.

Definition is_newline (c : ascii) : bool := Ascii.eqb c "010"%char.

(** [isspace] in the "C" locale: blank, and HT LF VT FF CR. *)
Definition isspace (c : ascii) : bool :=
  let n := N_of_ascii c in
  ((n =? 32) || ((9 <=? n) && (n <=? 13)))%N.

(** Characters up to the first newline, what follows it, and whether a
    newline was met before the end of input. *)
Fixpoint take_line (s : list ascii) : list ascii * list ascii * bool :=
  match s with
  | [] => ([], [], false)
  | c :: s' =>
      if is_newline c then ([], s', true)
      else let '(l, r, d) := take_line s' in (c :: l, r, d)
  end.

(** [std::getline(ins, str)]: [str] is left alone when the stream is not
    good on entry, erased and filled otherwise; the newline is consumed and
    not stored; [failbit] is set when no character could be extracted,
    [eofbit] when the input ended before a newline. *)
Definition getline (ins : istream) (str : list ascii) : istream * list ascii :=
  if good ins then
    match buf ins with
    | [] => ({| buf := []; eofbit := true; failbit := true |}, [])
    | _ :: _ =>
        let '(l, r, d) := take_line (buf ins) in
        ({| buf := r; eofbit := negb d; failbit := false |}, l)
    end
  else (setfail ins, str).

Fixpoint skipws (s : list ascii) : list ascii :=
  match s with
  | c :: s' => if isspace c then skipws s' else s
  | [] => []
  end.

(** What the numeric facet reports on an input that starts with a
    non-blank character. *)
Inductive scan_result :=
| Converted (x : double) (rest : list ascii)
    (** a field was read and converted to [x] *)
| OutOfRange (x : double) (rest : list ascii)
    (** a field was read but lies outside the range of [double]:
        [x] (the largest finite value, with the sign of the field) is
        stored and the extraction fails *)
| NoField (rest : list ascii)
    (** no field could be converted: zero is stored and the extraction
        fails *).

(** The facet [std::num_get<char>] of the stream's locale, for [double]. *)
Class NumGet := do_get : list ascii -> scan_result.

Definition is_nil {A} (l : list A) : bool :=
  match l with [] => true | _ => false end.

(** [ins >> v] for a [double& v].  When the stream is not good, or holds
    blanks only, the sentry fails and [v] is untouched. *)
Definition extract_double `{NumGet} (ins : istream) (v : double)
  : istream * double :=
  if good ins then
    match skipws (buf ins) with
    | [] => ({| buf := []; eofbit := true; failbit := true |}, v)
    | b =>
        match do_get b with
        | Converted x rest =>
            ({| buf := rest; eofbit := is_nil rest; failbit := false |}, x)
        | OutOfRange x rest =>
            ({| buf := rest; eofbit := is_nil rest; failbit := true |}, x)
        | NoField rest =>
            ({| buf := rest; eofbit := is_nil rest; failbit := true |},
             0%float)
        end
    end
  else (setfail ins, v).

(** *** A facet for running the model on examples

    The facet of the GNU library in the "C" locale.  It consumes an
    optional sign, digits with at most one point among them and, once a
    digit was met, an exponent: [e] or [E], an optional sign, digits.
    What it consumed is a field when the mantissa has a digit and a
    started exponent has one; the field is converted to the nearest
    [double], ties to even. *)
Definition digit_val (c : ascii) : option Z :=
  let n := Z.of_N (N_of_ascii c) in
  if (48 <=? n) && (n <=? 57) then Some (n - 48) else None.

(** A run of digits read after the value [acc] and [n] earlier digits:
    the value, the number of digits and what follows the run. *)
Fixpoint scan_digits (acc n : Z) (s : list ascii) : Z * Z * list ascii :=
  match s with
  | c :: s' =>
      match digit_val c with
      | Some d => scan_digits (10 * acc + d) (n + 1) s'
      | None => (acc, n, s)
      end
  | [] => (acc, n, [])
  end.

Definition scan_sign (s : list ascii) : bool * list ascii :=
  match s with
  | c :: t =>
      if Ascii.eqb c "-"%char then (true, t)
      else if Ascii.eqb c "+"%char then (false, t)
      else (false, s)
  | [] => (false, s)
  end.

Definition is_point (c : ascii) : bool := Ascii.eqb c "."%char.

Definition is_e (c : ascii) : bool :=
  Ascii.eqb c "e"%char || Ascii.eqb c "E"%char.

(** The binary64 number nearest to [m * 10 ^ k], ties to even, with the
    sign [neg]; [m] is not negative. *)
Definition decimal_value (neg : bool) (m k : Z) : spec_float :=
  match m with
  | Zpos p =>
      if 0 <=? k then binary_round prec emax neg (Z.to_pos (m * 10 ^ k)) 0
      else SFdiv prec emax (S754_finite neg p 0)
                 (S754_finite false (Z.to_pos (10 ^ (- k))) 0)
  | _ => S754_zero neg
  end.

Definition convert (neg : bool) (m k : Z) (rest : list ascii)
  : scan_result :=
  match decimal_value neg m k with
  | S754_infinity s =>
      OutOfRange (if s then - DBL_MAX else DBL_MAX)%float rest
  | v => Converted (SF2Prim v) rest
  end.

Definition decimal_num_get : NumGet := fun s =>
  let '(neg, s1) := scan_sign s in
  let '(mi, ni, s2) := scan_digits 0 0 s1 in
  let '(m, nf, s3) :=
    match s2 with
    | c :: t => if is_point c then scan_digits mi 0 t else (mi, 0, s2)
    | [] => (mi, 0, s2)
    end in
  if ni + nf =? 0 then NoField s3
  else
    match s3 with
    | c :: t =>
        if is_e c then
          let '(eneg, s4) := scan_sign t in
          let '(x, nx, s5) := scan_digits 0 0 s4 in
          if nx =? 0 then NoField s5
          else convert neg m ((if eneg then - x else x) - nf) s5
        else convert neg m (- nf) s3
    | [] => convert neg m (- nf) s3
    end.

End Cxx.

(** ** The toolkit's objects, as the data [main] builds *)

Module ACADO.

(** Symbolic expressions: [DifferentialState x; Control u;] declare the
    next free state or control, [*], [/], [cos], [sin], [tan] and [dot]
    build terms, a [double] operand becomes a constant. *)
Inductive Expression :=
| DifferentialState (i : nat)
| Control (i : nat)
| DoubleConstant (c : double)
| Product (a b : Expression)
| Quotient (a b : Expression)
| Cos (a : Expression)
| Sin (a : Expression)
| Tan (a : Expression)
| Dot (a : Expression).

(** [lhs == rhs] *)
Record Equation := { lhs : Expression; rhs : Expression }.

(** A [DifferentialEquation] collects the equations streamed into it, a
    [Function] the expressions streamed into it. *)
Definition DifferentialEquation := list Equation.
Definition Function := list Expression.

(** [obj << item] *)
Definition push {A} (obj : list A) (item : A) : list A := obj ++ [item].

Section Evaluation.
(** The value of an expression in any numeric domain that interprets
    constants, product, quotient and the three circular functions. *)
Context {num : Type} (of_double : double -> num)
        (mul div : num -> num -> num) (cos sin tan : num -> num).


End Evaluation.

(** Vectors and matrices are zero when constructed from dimensions only;
    an entry outside the dimensions is an error ([None]). *)
Abbreviation DVector := (list double).
Abbreviation DMatrix := (list (list double)).

Definition DVector_new (n : nat) : DVector := replicate n 0%float.
Definition DMatrix_new (rows cols : nat) : DMatrix :=
  replicate rows (DVector_new cols).

Definition DVector_set (i : nat) (v : double) (x : DVector)
  : option DVector :=
  if decide (i < length x)%nat then Some (<[i:=v]> x) else None.

Definition DMatrix_set (i j : nat) (v : double) (m : DMatrix)
  : option DMatrix :=
  row ← m !! i; row' ← DVector_set j v row; Some (<[i:=row']> m).

(** [Grid(firstTime, lastTime, nPoints)] *)
Record Grid := { firstTime : double; lastTime : double; nPoints : Z }.

(** [VariablesGrid(dim, firstTime, lastTime, nPoints)]: one zero vector of
    [dim] components per grid point.  [main] passes a count that is never
    negative. *)
Record VariablesGrid := {
  vg_dim : nat;
  vg_grid : Grid;
  vg_values : list DVector
}.

Definition VariablesGrid_new (dim : nat) (t0 t1 : double) (n : Z)
  : VariablesGrid :=
  {| vg_dim := dim;
     vg_grid := {| firstTime := t0; lastTime := t1; nPoints := n |};
     vg_values := replicate (Z.to_nat n) (DVector_new dim) |}.

(** [g(i, s) = v] *)
Definition VariablesGrid_set (i s : nat) (v : double) (g : VariablesGrid)
  : option VariablesGrid :=
  vals ← DMatrix_set i s v (vg_values g);
  Some {| vg_dim := vg_dim g; vg_grid := vg_grid g; vg_values := vals |}.

(** Options: the names and values [main] uses, and the settings made so
    far (a name that was never set keeps the toolkit's default). *)
Inductive OptionsName :=
| INTEGRATOR_TYPE | DISCRETIZATION_TYPE | HESSIAN_APPROXIMATION
| LEVENBERG_MARQUARDT | KKT_TOLERANCE | INFEASIBLE_QP_HANDLING.

Inductive OptionValue :=
| INT_RK45 | INT_EX_EULER | MULTIPLE_SHOOTING | GAUSS_NEWTON | IQH_STOP
| Real (d : double).

Definition OptionsName_eqb (a b : OptionsName) : bool :=
  match a, b with
  | INTEGRATOR_TYPE, INTEGRATOR_TYPE
  | DISCRETIZATION_TYPE, DISCRETIZATION_TYPE
  | HESSIAN_APPROXIMATION, HESSIAN_APPROXIMATION
  | LEVENBERG_MARQUARDT, LEVENBERG_MARQUARDT
  | KKT_TOLERANCE, KKT_TOLERANCE
  | INFEASIBLE_QP_HANDLING, INFEASIBLE_QP_HANDLING => true
  | _, _ => false
  end.

Definition Options := list (OptionsName * OptionValue).

(** [obj.set(name, value)] replaces an earlier setting of [name]. *)
Definition set (name : OptionsName) (v : OptionValue) (o : Options)
  : Options :=
  (name, v) :: filter (fun p => negb (OptionsName_eqb name (fst p))) o.


(** [DynamicSystem(f, outputFcn)] and [Process(dynamicSystem, integrator)] *)
Record DynamicSystem := {
  ds_equation : DifferentialEquation;
  ds_output : Function
}.

Record Process := {
  pr_system : DynamicSystem;
  pr_integrator : OptionValue;
  pr_options : Options
}.

(** [lb <= e <= ub] *)
Record Bound := { lb : double; bounded : Expression; ub : double }.

(** [minimizeLSQ(Q, h, r)] *)
Record LSQTerm := { lsq_Q : DMatrix; lsq_h : Function; lsq_r : DVector }.

(** An optimal control problem over a time grid: the least-squares terms,
    differential equations and bounds given to it so far. *)
Record OCP := {
  ocp_grid : Grid;
  ocp_lsq : list LSQTerm;
  ocp_dynamics : list DifferentialEquation;
  ocp_bounds : list Bound
}.

Definition OCP_new (g : Grid) : OCP :=
  {| ocp_grid := g; ocp_lsq := []; ocp_dynamics := []; ocp_bounds := [] |}.

Definition minimizeLSQ (Q : DMatrix) (h : Function) (r : DVector)
  (o : OCP) : OCP :=
  {| ocp_grid := ocp_grid o;
     ocp_lsq := ocp_lsq o ++ [{| lsq_Q := Q; lsq_h := h; lsq_r := r |}];
     ocp_dynamics := ocp_dynamics o;
     ocp_bounds := ocp_bounds o |}.

Definition subjectTo_equation (f : DifferentialEquation) (o : OCP) : OCP :=
  {| ocp_grid := ocp_grid o;
     ocp_lsq := ocp_lsq o;
     ocp_dynamics := ocp_dynamics o ++ [f];
     ocp_bounds := ocp_bounds o |}.

Definition subjectTo (b : Bound) (o : OCP) : OCP :=
  {| ocp_grid := ocp_grid o;
     ocp_lsq := ocp_lsq o;
     ocp_dynamics := ocp_dynamics o;
     ocp_bounds := ocp_bounds o ++ [b] |}.

(** [RealTimeAlgorithm(ocp, samplingTime)] *)
Record RealTimeAlgorithm := {
  rta_ocp : OCP;
  rta_samplingTime : double;
  rta_options : Options
}.

Definition RealTimeAlgorithm_set (name : OptionsName) (v : OptionValue)
  (a : RealTimeAlgorithm) : RealTimeAlgorithm :=
  {| rta_ocp := rta_ocp a;
     rta_samplingTime := rta_samplingTime a;
     rta_options := set name v (rta_options a) |}.

(** [Controller(alg, StaticReferenceTrajectory(grid))] *)
Record Controller := {
  ctl_law : RealTimeAlgorithm;
  ctl_reference : VariablesGrid
}.

(** [SimulationEnvironment(startTime, endTime, process, controller)] *)
Record SimulationEnvironment := {
  sim_start : double;
  sim_end : double;
  sim_process : Process;
  sim_controller : Controller
}.

End ACADO.

(** ** [main], from the opening of the reference file to the construction
    of the simulation environment (lines 13 to 179) *)

Module Main.
Import ACADO.

Definition wheelbase : double := 10.0%float.
Definition tTotal : double := 70.0%float.
Definition tStart : double := 0.0%float.
Definition numSteps : Z := 25.

(** Variables *)
Definition x : Expression := DifferentialState 0.
Definition y : Expression := DifferentialState 1.
Definition theta : Expression := DifferentialState 2.
Definition u0 : Expression := Control 0.
Definition u1 : Expression := Control 1.

(** Differential equation *)
Definition f : DifferentialEquation :=
  let f := [] in
  let f := push f {| lhs := Dot x; rhs := Product u0 (Cos theta) |} in
  let f := push f {| lhs := Dot y; rhs := Product u0 (Sin theta) |} in
  let f := push f {| lhs := Dot theta;
                     rhs := Quotient (Product u0 (Tan u1))
                                     (DoubleConstant wheelbase) |} in
  f.

Definition identity : Function := [].
Definition dynamicSystem : DynamicSystem :=
  {| ds_equation := f; ds_output := identity |}.

Definition process : Process :=
  {| pr_system := dynamicSystem;
     pr_integrator := INT_RK45;
     pr_options := set INTEGRATOR_TYPE INT_EX_EULER [] |}.

(** Objective function *)
Definition h : Function :=
  push (push (push (push (push [] x) y) theta) u0) u1.

(** Coefficient matrix *)
Definition Q : option DMatrix :=
  Q ← Some (DMatrix_new 5 5);
  Q ← DMatrix_set 0 0 1.0%float Q;
  Q ← DMatrix_set 1 1 1.0%float Q;
  Q ← DMatrix_set 2 2 0.7%float Q;
  Q ← DMatrix_set 3 3 1e-6%float Q;
  DMatrix_set 4 4 1e-6%float Q.

(** Reference *)
Definition r : DVector := DVector_new 5.

(** [for (int i = start; i < start + count; i++) body] over a state in
    which an access outside a vector or a grid has no result. *)
Fixpoint for_range {A} (start count : nat) (body : nat -> A -> option A)
  (a : A) : option A :=
  match count with
  | O => Some a
  | S k => a' ← body start a; for_range (S start) k body a'
  end.

(** Everything [main] has built when it reaches [sim.init]. *)
Record Configuration := {
  ref_states : list (list double);
  num_waypoints : Z;
  totalSteps : Z;
  dt : double;
  tEnd : double;
  timeGrid : Grid;
  reference_grid : VariablesGrid;
  ocp : OCP;
  alg : RealTimeAlgorithm;
  controller : Controller;
  x0 : DVector;
  sim : SimulationEnvironment
}.

Inductive outcome :=
| Exit (stderr : string) (status : Z)
| Configured (c : Configuration).

Definition endl : string := String "010"%char EmptyString.

(** Lines 96 to 102. *)
Definition fill_reference_grid (ref_states : list (list double))
  (totalSteps : Z) (reference_grid : VariablesGrid) : option VariablesGrid :=
  for_range 0 (Z.to_nat totalSteps)
    (fun i g =>
       for_range 0 3
         (fun s g =>
            row ← ref_states !! i;
            v ← row !! s;
            VariablesGrid_set i s v g)
         g)
    reference_grid.

(** Lines 44 to 179.  The quotient that gives [dt] is the binary64 one: it
    is defined for a zero divisor too, and is then infinite or not a
    number. *)
Definition setup (ref_states : list (list double)) (num_waypoints : Z)
  : option Configuration :=
  totalSteps ← int_result (num_waypoints - 1);
  let dt := (tTotal / double_of_int totalSteps)%float in
  let tEnd := (tStart + double_of_int numSteps * dt)%float in
  Q ← Q;
  let timeGrid :=
    {| firstTime := tStart; lastTime := tEnd; nPoints := numSteps |} in
  reference_grid ←
    fill_reference_grid ref_states totalSteps
      (VariablesGrid_new 3 tStart tTotal totalSteps);
  let ocp := OCP_new timeGrid in
  let ocp := minimizeLSQ Q h r ocp in
  let ocp := subjectTo_equation f ocp in
  let ocp := subjectTo {| lb := 0.0%float; bounded := x; ub := 200.0%float |} ocp in
  let ocp := subjectTo {| lb := 0.0%float; bounded := y; ub := 200.0%float |} ocp in
  let ocp := subjectTo {| lb := (- M_PI)%float; bounded := theta; ub := M_PI |} ocp in
  let ocp := subjectTo {| lb := (- 10.0)%float; bounded := u0; ub := 10.0%float |} ocp in
  let ocp := subjectTo {| lb := ((- M_PI) / 3)%float; bounded := u1;
                          ub := (M_PI / 3)%float |} ocp in
  let alg :=
    {| rta_ocp := ocp; rta_samplingTime := dt; rta_options := [] |} in
  let alg := RealTimeAlgorithm_set LEVENBERG_MARQUARDT (Real 1e-4%float) alg in
  let alg := RealTimeAlgorithm_set INFEASIBLE_QP_HANDLING IQH_STOP alg in
  let alg := RealTimeAlgorithm_set INTEGRATOR_TYPE INT_RK45 alg in
  let alg := RealTimeAlgorithm_set DISCRETIZATION_TYPE MULTIPLE_SHOOTING alg in
  let alg := RealTimeAlgorithm_set HESSIAN_APPROXIMATION GAUSS_NEWTON alg in
  let alg := RealTimeAlgorithm_set KKT_TOLERANCE (Real 1e-8%float) alg in
  let controller :=
    {| ctl_law := alg; ctl_reference := reference_grid |} in
  first ← ref_states !! 0%nat;
  x0 ← Some (DVector_new 3);
  v ← first !! 0%nat; x0 ← DVector_set 0 v x0;
  v ← first !! 1%nat; x0 ← DVector_set 1 v x0;
  v ← first !! 2%nat; x0 ← DVector_set 2 v x0;
  Some {| ref_states := ref_states;
          num_waypoints := num_waypoints;
          totalSteps := totalSteps;
          dt := dt;
          tEnd := tEnd;
          timeGrid := timeGrid;
          reference_grid := reference_grid;
          ocp := ocp;
          alg := alg;
          controller := controller;
          x0 := x0;
          sim := {| sim_start := 0.0%float; sim_end := tTotal;
                    sim_process := process;
                    sim_controller := controller |} |}.

Section Loading.
Context `{Cxx.NumGet}.

(** Lines 33 to 36: one extraction per cell of [s], in order. *)
Fixpoint extract_each (iss : Cxx.istream) (s : list double)
  : Cxx.istream * list double :=
  match s with
  | [] => (iss, [])
  | vit :: s' =>
      let '(iss, vit) := Cxx.extract_double iss vit in
      let '(iss, s') := extract_each iss s' in
      (iss, vit :: s')
  end.

(** Lines 31 to 36: the waypoint read from one line. *)
Definition parse_line (line : list ascii) : list double :=
  let s := replicate 3 0%float in
  let iss := Cxx.open line in
  snd (extract_each iss s).

(** The variables the reading loop works on. *)
Record Loader := {
  xref : Cxx.istream;
  line : list ascii;
  ld_ref_states : list (list double);
  ld_num_waypoints : Z
}.

(** Lines 29 to 39: the loop test followed by the body.  [Some None]
    when the test fails and the loop is left, [None] when the counter
    overflows. *)
Definition read_line (st : Loader) : option (option Loader) :=
  let '(xref, line) := Cxx.getline (xref st) (line st) in
  if Cxx.operator_bool xref then
    num_waypoints ← int_result (ld_num_waypoints st + 1);
    Some (Some {| xref := xref;
                  line := line;
                  ld_ref_states := ld_ref_states st ++ [parse_line line];
                  ld_num_waypoints := num_waypoints |})
  else Some None.

(** The loop, for at most [fuel] evaluations of its test: the variables
    as they are when the loop is left. *)
Fixpoint read_loop (fuel : nat) (st : Loader) : option Loader :=
  match fuel with
  | O => None
  | S fuel =>
      match read_line st with
      | Some (Some st') => read_loop fuel st'
      | Some None => Some st
      | None => None
      end
  end.

Definition start (content : list ascii) : Loader :=
  {| xref := Cxx.open content; line := [];
     ld_ref_states := []; ld_num_waypoints := 0 |}.

Definition cannot_open : outcome :=
  Exit ("cannot open reference state file!" ++ endl) EXIT_FAILURE.
Definition failed_to_store : outcome :=
  Exit ("failed to store the reference in ref_states!" ++ endl)
       EXIT_FAILURE.

(** Lines 28 to 39 on a file that could be opened.  The loop has one
    turn per line and a line takes at least one character, so the fuel
    is never used up. *)
Definition load (content : list ascii) : option Loader :=
  read_loop (S (length content)) (start content).

(** Lines 40 to 179. *)
Definition after_loading (st : Loader) : option outcome :=
  if Cxx.is_nil (ld_ref_states st) then Some failed_to_store
  else Configured <$> setup (ld_ref_states st) (ld_num_waypoints st).

(** [main] on the reference file: [None] when it cannot be opened, its
    characters otherwise.  The result is [None] when the behaviour of
    the program is undefined. *)
Definition main (file : option (list ascii)) : option outcome :=
  match file with
  | None => Some cannot_open
  | Some content => load content ≫= after_loading
  end.

End Loading.

(** *** Notions used to state the properties *)

(** The lines of a text, as line-oriented reading sees them: a newline
    ends a line, and a last line needs none. *)
Fixpoint file_lines (s : list ascii) : list (list ascii) :=
  match s with
  | [] => []
  | c :: s' =>
      if Cxx.is_newline c then [] :: file_lines s'
      else match file_lines s' with
           | [] => [[c]]
           | l :: ls => (c :: l) :: ls
           end
  end.

(** The numeric fields that successive extractions find at the start of
    a line, at most [n] of them; an out-of-range field is the last. *)
Fixpoint numeric_fields `{Cxx.NumGet} (n : nat) (s : list ascii)
  : list double :=
  match n with
  | O => []
  | S n =>
      match Cxx.skipws s with
      | [] => []
      | b =>
          match Cxx.do_get b with
          | Cxx.Converted v rest => v :: numeric_fields n rest
          | Cxx.OutOfRange v _ => [v]
          | Cxx.NoField _ => []
          end
      end
  end.

(** A diagonal matrix, entry by entry. *)
Definition diag (w : list double) : DMatrix :=
  imap (fun i wi => <[i:=wi]> (DVector_new (length w))) w.

End Main.

(** ** [main], from the start of the simulation to its return (lines 181
    to 236) *)

Module Run.
Import ACADO.

(** [os << v] for a [double]: the characters the stream's numeric facet
    [std::num_put<char>] produces. *)
Class NumPut := put_double : double -> list ascii.

(** What [main] asks of the toolkit once the simulation environment is
    built: whether [sim.init(x0)] and then [sim.run()] return
    [SUCCESSFUL_RETURN], the two grids read back from the simulation, and
    the three sizes a grid reports (of type [uint]). *)
Class Toolkit := {
  init : SimulationEnvironment -> DVector -> bool;
  run : SimulationEnvironment -> DVector -> bool;
  getProcessDifferentialStates :
    SimulationEnvironment -> DVector -> VariablesGrid;
  getFeedbackControl : SimulationEnvironment -> DVector -> VariablesGrid;
  getDim : VariablesGrid -> Z;
  getNumRows : VariablesGrid -> Z;
  getNumCols : VariablesGrid -> Z
}.

(** An output file stream: the characters written, and whether the stream
    has failed.  A stream whose file could not be opened has failed; a
    write to an opened file is taken to succeed. *)
Record ofstream := { written : list ascii; failed : bool }.

Definition ofstream_open (opens : bool) : ofstream :=
  {| written := []; failed := negb opens |}.

(** [os << text]: nothing is written to a failed stream. *)
Definition write (os : ofstream) (text : list ascii) : ofstream :=
  if failed os then os
  else {| written := written os ++ text; failed := false |}.

Definition space : list ascii := [" "%char].
Definition newline : list ascii := ["010"%char].

(** Division of two [unsigned] values; by zero it has no result. *)
Definition udiv (a b : Z) : option Z :=
  if b =? 0 then None else Some (a / b).

(** The loop bound [g.getDim()/g.getNumRows()/g.getNumCols()]. *)
Definition bound `{Toolkit} (g : VariablesGrid) : option Z :=
  q ← udiv (getDim g) (getNumRows g); udiv q (getNumCols g).

(** [g(i, s)], read. *)
Definition at_ (g : VariablesGrid) (i s : nat) : option double :=
  row ← vg_values g !! i; row !! s.

(** [for (auto i = 0; i < n; i++) body], with the [int] counter [i]. *)
Definition for_int {A} (n : option Z) (body : nat -> A -> option A) (a : A)
  : option A :=
  n ← n;
  Main.for_range 0 (Z.to_nat n)
    (fun i a => a ← body i a; _ ← int_result (Z.of_nat i + 1); Some a) a.

Section Writing.
Context `{NumPut} `{Toolkit}.

(** Lines 223 to 228. *)
Definition write_states (outputStatesApp : VariablesGrid)
  (output_states_app : ofstream) : option ofstream :=
  for_int (bound outputStatesApp)
    (fun i os =>
       a ← at_ outputStatesApp i 0;
       b ← at_ outputStatesApp i 1;
       c ← at_ outputStatesApp i 2;
       let os := write os (put_double a) in
       let os := write os space in
       let os := write os (put_double b) in
       let os := write os space in
       let os := write os (put_double c) in
       Some (write os newline))
    output_states_app.

(** Lines 230 to 234. *)
Definition write_controls (outputControlsApp : VariablesGrid)
  (output_controls_app : ofstream) : option ofstream :=
  for_int (bound outputControlsApp)
    (fun i os =>
       a ← at_ outputControlsApp i 0;
       b ← at_ outputControlsApp i 1;
       let os := write os (put_double a) in
       let os := write os space in
       let os := write os (put_double b) in
       Some (write os newline))
    output_controls_app.

(** What the program is given besides the toolkit: the reference file
    ([None] when it cannot be opened), and whether each of the two output
    files can be opened for writing. *)
Record Environment := {
  reference_file : option (list ascii);
  states_file_opens : bool;
  controls_file_opens : bool
}.

(** What a run leaves: the exit status, what [main] wrote to the standard
    error stream, and for each output file what the run wrote to it,
    [None] when the run did not open it. *)
Record Result := {
  status : Z;
  stderr : string;
  output_states : option (list ascii);
  output_controls : option (list ascii)
}.

Definition file_of (os : ofstream) : option (list ascii) :=
  if failed os then None else Some (written os).

Definition exit_failure (stderr : string) : Result :=
  {| status := EXIT_FAILURE; stderr := stderr;
     output_states := None; output_controls := None |}.

(** Lines 181 to 236, from a configuration.  The two grids that [main]
    reads from the algorithm and never uses are left out. *)
Definition simulate (env : Environment) (c : Main.Configuration)
  : option Result :=
  if negb (init (Main.sim c) (Main.x0 c)) then Some (exit_failure "")
  else if negb (run (Main.sim c) (Main.x0 c)) then Some (exit_failure "")
  else
    let outputStatesApp :=
      getProcessDifferentialStates (Main.sim c) (Main.x0 c) in
    let outputControlsApp := getFeedbackControl (Main.sim c) (Main.x0 c) in
    let output_states_app := ofstream_open (states_file_opens env) in
    let output_controls_app := ofstream_open (controls_file_opens env) in
    output_states_app ← write_states outputStatesApp output_states_app;
    output_controls_app ← write_controls outputControlsApp output_controls_app;
    Some {| status := 0; stderr := "";
            output_states := file_of output_states_app;
            output_controls := file_of output_controls_app |}.

(** The whole of [main]; [None] when its behaviour is undefined. *)
Definition main `{Cxx.NumGet} (env : Environment) : option Result :=
  o ← Main.main (reference_file env);
  match o with
  | Main.Exit stderr status =>
      Some {| status := status; stderr := stderr;
              output_states := None; output_controls := None |}
  | Main.Configured c => simulate env c
  end.

(** *** Notions used to state the properties *)

(** The line written for a state, and for a control. *)
Definition states_line (row : DVector) : list ascii :=
  match row with
  | a :: b :: c :: _ =>
      put_double a ++ space ++ put_double b ++ space ++ put_double c
        ++ newline
  | _ => []
  end.

Definition controls_line (row : DVector) : list ascii :=
  match row with
  | a :: b :: _ => put_double a ++ space ++ put_double b ++ newline
  | _ => []
  end.

(** A number that the printing facet writes, on one line, in a form the
    reading facet converts back to it, whatever blank-led text follows. *)
Definition reads_back `{Cxx.NumGet} (v : double) : Prop :=
  Forall (fun c => Cxx.is_newline c = false) (put_double v)
  /\ forall rest,
       match rest with [] => True | c :: _ => Cxx.isspace c = true end ->
       Cxx.skipws (put_double v ++ rest) = put_double v ++ rest
       /\ Cxx.do_get (put_double v ++ rest) = Cxx.Converted v rest.
End Writing.

End Run.

(** ** Two small reference files *)

Module Examples.
Open Scope string_scope.

(** A full waypoint, a short line and a long line. *)
Definition three_lines : list ascii :=
  list_ascii_of_string
    ("1 2 3" ++ Main.endl ++ "4 5" ++ Main.endl ++ "7 8 9 10").

Definition one_line : list ascii := list_ascii_of_string "1 2 3".

(** *** A printing facet for the examples

    [operator<<] of the GNU library on a stream in its initial state: the
    general format with six significant digits, as [printf] with [%g].
    A NaN is written "nan"; the library writes "-nan" for one whose sign
    bit is set, which a [double] here does not record. *)

(** Whether [10 ^ k <= a / b], for positive [a] and [b]. *)
Definition reaches (a b k : Z) : bool :=
  if (0 <=? k)%Z then (b * 10 ^ k <=? a)%Z else (b <=? a * 10 ^ (- k))%Z.

Fixpoint climb (fuel : nat) (a b x : Z) : Z :=
  match fuel with
  | O => x
  | S fuel => if reaches a b (x + 1) then climb fuel a b (x + 1)%Z else x
  end.

(** The decimal exponent of [a / b], the [x] with
    [10 ^ x <= a / b < 10 ^ (x + 1)].  The search starts from an estimate
    that the binary logarithms give; for the quotients that come from a
    [double] it is not above [x] and less than 4 below it. *)
Definition decimal_exponent (a b : Z) : Z :=
  climb 8 a b ((Z.log2 a - Z.log2 b - 1) * 30103 / 100000 - 1)%Z.

(** [a / b] rounded to the nearest integer, ties to even. *)
Definition round_half_even (a b : Z) : Z :=
  let q := (a / b)%Z in
  match (2 * (a mod b) ?= b)%Z with
  | Lt => q
  | Eq => if Z.even q then q else (q + 1)%Z
  | Gt => (q + 1)%Z
  end.

(** The six significant digits of [a / b], as a number from 10^5 to
    10^6 - 1, and the decimal exponent of the rounded number. *)
Definition six_digits (a b : Z) : Z * Z :=
  let x := decimal_exponent a b in
  let n := if (0 <=? 5 - x)%Z then round_half_even (a * 10 ^ (5 - x)) b
           else round_half_even a (b * 10 ^ (x - 5)) in
  if (n =? 10 ^ 6)%Z then (10 ^ 5, x + 1)%Z else (n, x).

Definition decimal (z : Z) : list ascii :=
  list_ascii_of_string (NilZero.string_of_int (Z.to_int z)).

Definition is_zero (c : ascii) : bool := Ascii.eqb c "0"%char.

Fixpoint drop_zeros (s : list ascii) : list ascii :=
  match s with
  | c :: s' => if is_zero c then drop_zeros s' else s
  | [] => []
  end.

Definition strip_zeros (s : list ascii) : list ascii :=
  rev (drop_zeros (rev s)).

(** An integer part and a fraction, without the zeros that end the
    fraction, and without the point when nothing is left of it. *)
Definition with_fraction (int frac : list ascii) : list ascii :=
  match strip_zeros frac with
  | [] => int
  | f => (int ++ "."%char :: f)%list
  end.

Definition exponent_text (x : Z) : list ascii :=
  "e"%char :: (if (x <? 0)%Z then "-"%char else "+"%char)
  :: ((if (Z.abs x <? 10)%Z then ["0"%char] else []) ++ decimal (Z.abs x))%list.

(** The general format on the positive number [a / b]. *)
Definition general (a b : Z) : list ascii :=
  let '(n, x) := six_digits a b in
  let ds := decimal n in
  if ((x <? -4) || (6 <=? x))%Z then
    (with_fraction (take 1 ds) (drop 1 ds) ++ exponent_text x)%list
  else if (0 <=? x)%Z then
    with_fraction (take (Z.to_nat (x + 1)) ds) (drop (Z.to_nat (x + 1)) ds)
  else
    with_fraction ["0"%char]
      (replicate (Z.to_nat (- x - 1)) "0"%char ++ ds)%list.

Definition signed (s : bool) (t : list ascii) : list ascii :=
  if s then "-"%char :: t else t.

Definition default_num_put : Run.NumPut := fun v =>
  match Prim2SF v with
  | S754_zero s => signed s ["0"%char]
  | S754_infinity s => signed s (list_ascii_of_string "inf")
  | S754_nan => list_ascii_of_string "nan"
  | S754_finite s m e =>
      signed s (if (0 <=? e)%Z then general (Z.pos m * 2 ^ e) 1
                else general (Z.pos m) (2 ^ (- e)))
  end.

(** A toolkit for the examples: the simulation succeeds, and reports the
    reference grid as the states and its first two columns as the
    controls; a grid reports the sizes of its rows. *)
Definition replay_toolkit : Run.Toolkit :=
  {| Run.init _ _ := true;
     Run.run _ _ := true;
     Run.getProcessDifferentialStates sim _ :=
       ACADO.ctl_reference (ACADO.sim_controller sim);
     Run.getFeedbackControl sim _ :=
       let g := ACADO.ctl_reference (ACADO.sim_controller sim) in
       {| ACADO.vg_dim := 2; ACADO.vg_grid := ACADO.vg_grid g;
          ACADO.vg_values := map (take 2) (ACADO.vg_values g) |};
     Run.getDim g := Z.of_nat (length (concat (ACADO.vg_values g)));
     Run.getNumRows g :=
       match ACADO.vg_values g with
       | row :: _ => Z.of_nat (length row)
       | [] => 0%Z
       end;
     Run.getNumCols g :=
       match ACADO.vg_values g with _ :: _ => 1%Z | [] => 0%Z end |}.

Definition environment (file : list ascii) : Run.Environment :=
  {| Run.reference_file := Some file;
     Run.states_file_opens := true;
     Run.controls_file_opens := true |}.

(** A file with an empty second line, and a file that ends with a
    newline. *)
Definition with_blank_line : list ascii :=
  list_ascii_of_string ("1 2 3" ++ Main.endl ++ Main.endl ++ "4 5 6").

Definition newline_ended : list ascii :=
  list_ascii_of_string ("1 2 3" ++ Main.endl).

(** A grid of two states. *)
Definition two_states : ACADO.VariablesGrid :=
  {| ACADO.vg_dim := 3;
     ACADO.vg_grid := {| ACADO.firstTime := 0%float;
                         ACADO.lastTime := 70%float;
                         ACADO.nPoints := 2 |};
     ACADO.vg_values := [[1; 2; 3]; [4; 5; 0]]%float |}.
End Examples.

(** * Properties *)

(** ** Counters *)

Lemma int_result_Some z r :
  int_result z = Some r <-> r = z /\ INT_MIN <= z <= INT_MAX.
Proof.
  unfold int_result.
  destruct (INT_MIN <=? z) eqn:Hlo; destruct (z <=? INT_MAX) eqn:Hhi; simpl;
    split; try discriminate; try (intros [= <-]; split; [reflexivity|lia]);
    try (intros [-> ?]; reflexivity); intros [_ ?]; lia.
Qed.

Lemma int_result_fits z :
  INT_MIN <= z <= INT_MAX -> int_result z = Some z.
Proof. intros Hz. now apply int_result_Some. Qed.

(** ** Lines of the file *)

Lemma take_line_lines c s :
  Main.file_lines (c :: s) =
  (Cxx.take_line (c :: s)).1.1 :: Main.file_lines (Cxx.take_line (c :: s)).1.2.
Proof.
  revert c. induction s as [|c' s IH]; intros c; simpl.
  - destruct (Cxx.is_newline c); reflexivity.
  - destruct (Cxx.is_newline c) eqn:Hc; [reflexivity|].
    specialize (IH c'). simpl in IH. rewrite IH.
    destruct (Cxx.is_newline c'); [reflexivity|].
    destruct (Cxx.take_line s) as [[l r] d]. reflexivity.
Qed.

Lemma take_line_shorter s :
  (length (Cxx.take_line s).1.2 <= Nat.pred (length s))%nat.
Proof.
  induction s as [|c s IH]; simpl; [lia|].
  destruct (Cxx.is_newline c); simpl; [lia|].
  destruct (Cxx.take_line s) as [[l r] d]. simpl in *. lia.
Qed.

Lemma take_line_eof s :
  (Cxx.take_line s).2 = false -> (Cxx.take_line s).1.2 = [].
Proof.
  induction s as [|c s IH]; simpl; [reflexivity|].
  destruct (Cxx.is_newline c); simpl; [discriminate|].
  destruct (Cxx.take_line s) as [[l r] d]. simpl in *. exact IH.
Qed.

Lemma file_lines_nil s : Main.file_lines s = [] <-> s = [].
Proof.
  split; [|intros ->; reflexivity].
  destruct s as [|c s]; [reflexivity|].
  rewrite take_line_lines. discriminate.
Qed.

Section Correctness.
Context `{Cxx.NumGet}.
Import ACADO.

(** ** The reading loop *)

Lemma read_line_at_end st :
  Cxx.failbit (Main.xref st) = false ->
  Cxx.buf (Main.xref st) = [] ->
  Main.read_line st = Some None.
Proof.
  intros Hf Hb. unfold Main.read_line, Cxx.getline, Cxx.good.
  rewrite Hf, Hb. destruct (Cxx.eofbit (Main.xref st)); reflexivity.
Qed.

Lemma read_line_next st c s :
  Cxx.failbit (Main.xref st) = false ->
  (Cxx.eofbit (Main.xref st) = true -> Cxx.buf (Main.xref st) = []) ->
  Cxx.buf (Main.xref st) = c :: s ->
  Main.read_line st =
  (num_waypoints ← int_result (Main.ld_num_waypoints st + 1);
   Some (Some
     {| Main.xref :=
          {| Cxx.buf := (Cxx.take_line (c :: s)).1.2;
             Cxx.eofbit := negb (Cxx.take_line (c :: s)).2;
             Cxx.failbit := false |};
        Main.line := (Cxx.take_line (c :: s)).1.1;
        Main.ld_ref_states :=
          Main.ld_ref_states st
            ++ [Main.parse_line (Cxx.take_line (c :: s)).1.1];
        Main.ld_num_waypoints := num_waypoints |})).
Proof.
  intros Hf He Hb. unfold Main.read_line, Cxx.getline, Cxx.good.
  rewrite Hf, Hb.
  destruct (Cxx.eofbit (Main.xref st)) eqn:Heof.
  { specialize (He eq_refl). congruence. }
  generalize (Cxx.take_line (c :: s)). intros [[l r] d]. reflexivity.
Qed.

(** When the loop is left, every line has been read. *)
Lemma read_loop_sound fuel : forall st st',
  Cxx.failbit (Main.xref st) = false ->
  (Cxx.eofbit (Main.xref st) = true -> Cxx.buf (Main.xref st) = []) ->
  Main.read_loop fuel st = Some st' ->
  let lines := Main.file_lines (Cxx.buf (Main.xref st)) in
  Main.ld_ref_states st' =
    Main.ld_ref_states st ++ map Main.parse_line lines
  /\ Main.ld_num_waypoints st' =
     Main.ld_num_waypoints st + Z.of_nat (length lines)
  /\ (Main.ld_num_waypoints st <= INT_MAX ->
      Main.ld_num_waypoints st' <= INT_MAX)
  /\ Main.read_line st' = Some None.
Proof.
  induction fuel as [|fuel IH]; intros st st' Hf He Hloop; [discriminate|].
  simpl in Hloop.
  destruct (Cxx.buf (Main.xref st)) as [|c s] eqn:Hb.
  - rewrite (read_line_at_end st Hf Hb) in Hloop. injection Hloop as <-.
    simpl. rewrite app_nil_r, Z.add_0_r. auto using read_line_at_end.
  - rewrite <- Hb in He. rewrite (read_line_next st c s Hf He Hb) in Hloop.
    pose proof (take_line_eof (c :: s)) as Heof.
    cbv zeta. rewrite take_line_lines.
    remember (Cxx.take_line (c :: s)) as tl eqn:Htl in *. clear Htl.
    destruct (int_result (Main.ld_num_waypoints st + 1)) as [nw|] eqn:Hnw;
      [|discriminate].
    apply int_result_Some in Hnw as [-> Hrange]. simpl in Hloop.
    apply IH in Hloop as (Hrs & Hn & Hmax & Hend); simpl.
    + simpl in Hrs, Hn, Hmax. rewrite Hrs, Hn, <- app_assoc.
      repeat split; try assumption; lia.
    + reflexivity.
    + intros Hd. apply Heof. now destruct (tl.2).
Qed.

(** The loop is left before the fuel is used up, unless the counter
    overflows. *)
Lemma read_loop_total fuel : forall st,
  Cxx.failbit (Main.xref st) = false ->
  (Cxx.eofbit (Main.xref st) = true -> Cxx.buf (Main.xref st) = []) ->
  (length (Cxx.buf (Main.xref st)) < fuel)%nat ->
  INT_MIN <= Main.ld_num_waypoints st ->
  Main.ld_num_waypoints st
    + Z.of_nat (length (Main.file_lines (Cxx.buf (Main.xref st))))
    <= INT_MAX ->
  is_Some (Main.read_loop fuel st).
Proof.
  induction fuel as [|fuel IH]; intros st Hf He Hlen Hlo Hhi; [lia|].
  simpl. destruct (Cxx.buf (Main.xref st)) as [|c s] eqn:Hb.
  - rewrite (read_line_at_end st Hf Hb). eauto.
  - rewrite <- Hb in He. rewrite (read_line_next st c s Hf He Hb).
    rewrite take_line_lines in Hhi.
    pose proof (take_line_shorter (c :: s)) as Hshort.
    pose proof (take_line_eof (c :: s)) as Heof.
    remember (Cxx.take_line (c :: s)) as tl eqn:Htl in *. clear Htl.
    simpl length in Hshort, Hlen, Hhi.
    rewrite int_result_fits by lia. simpl.
    apply IH; simpl;
      [reflexivity|intros Hd; apply Heof; now destruct (tl.2)|lia..].
Qed.

Lemma read_loop_mono fuel extra : forall st st',
  Main.read_loop fuel st = Some st' ->
  Main.read_loop (fuel + extra) st = Some st'.
Proof.
  induction fuel as [|fuel IH]; intros st st' Hloop; [discriminate|].
  simpl in *. destruct (Main.read_line st) as [[st1|]|]; auto.
Qed.

Lemma read_loop_fuel f1 f2 st st1 st2 :
  Main.read_loop f1 st = Some st1 ->
  Main.read_loop f2 st = Some st2 -> st1 = st2.
Proof.
  intros H1 H2.
  apply (read_loop_mono f1 f2) in H1. apply (read_loop_mono f2 f1) in H2.
  rewrite Nat.add_comm in H2. congruence.
Qed.

(** ** The extractions made on one line *)

Lemma extract_each_failed s : forall iss,
  Cxx.good iss = false -> (Main.extract_each iss s).2 = s.
Proof.
  induction s as [|v s IH]; intros iss Hg; simpl; [reflexivity|].
  unfold Cxx.extract_double. rewrite Hg.
  specialize (IH (Cxx.setfail iss)).
  destruct (Main.extract_each (Cxx.setfail iss) s) as [iss' s'].
  simpl in *. rewrite IH; [reflexivity|].
  unfold Cxx.good. simpl. apply andb_false_r.
Qed.

Lemma extract_each_fields n : forall iss,
  Cxx.failbit iss = false ->
  (Cxx.eofbit iss = true -> Cxx.buf iss = []) ->
  (Main.extract_each iss (replicate n 0%float)).2 =
  resize n 0%float (Main.numeric_fields n (Cxx.buf iss)).
Proof.
  induction n as [|n IH]; intros iss Hf He; [reflexivity|].
  simpl replicate. simpl Main.extract_each. simpl Main.numeric_fields.
  unfold Cxx.extract_double, Cxx.good. rewrite Hf.
  destruct (Cxx.eofbit iss) eqn:Heof; simpl negb; simpl andb; cbv iota.
  { rewrite (He eq_refl). simpl Cxx.skipws. cbv iota.
    pose proof (extract_each_failed (replicate n 0%float) (Cxx.setfail iss))
      as Hrest.
    destruct (Main.extract_each (Cxx.setfail iss) (replicate n 0%float)).
    simpl in *. rewrite Hrest; [|unfold Cxx.good; simpl; apply andb_false_r].
    rewrite ?resize_nil. reflexivity. }
  destruct (Cxx.skipws (Cxx.buf iss)) as [|c b].
  { match goal with |- context [Main.extract_each ?i _] =>
      pose proof (extract_each_failed (replicate n 0%float) i eq_refl)
        as Hrest;
      destruct (Main.extract_each i (replicate n 0%float)) end.
    simpl in *. rewrite Hrest, ?resize_nil. reflexivity. }
  destruct (Cxx.do_get (c :: b)) as [v rest|v rest|rest].
  - specialize (IH {| Cxx.buf := rest; Cxx.eofbit := Cxx.is_nil rest;
                      Cxx.failbit := false |} eq_refl).
    simpl in IH.
    destruct (Main.extract_each _ (replicate n 0%float)).
    simpl in *. rewrite IH; [reflexivity|].
    destruct rest; [reflexivity|discriminate].
  - match goal with |- context [Main.extract_each ?i _] =>
      pose proof (extract_each_failed (replicate n 0%float) i) as Hrest;
      destruct (Main.extract_each i (replicate n 0%float)) end.
    simpl in *. rewrite Hrest, ?resize_nil;
      [reflexivity|unfold Cxx.good; simpl; apply andb_false_r].
  - match goal with |- context [Main.extract_each ?i _] =>
      pose proof (extract_each_failed (replicate n 0%float) i) as Hrest;
      destruct (Main.extract_each i (replicate n 0%float)) end.
    simpl in *. rewrite Hrest, ?resize_nil;
      [reflexivity|unfold Cxx.good; simpl; apply andb_false_r].
Qed.

Lemma numeric_fields_take n m : forall s,
  Main.numeric_fields n s = take n (Main.numeric_fields (n + m) s).
Proof.
  induction n as [|n IH]; intros s; [reflexivity|].
  simpl. destruct (Cxx.skipws s) as [|c b]; [reflexivity|].
  destruct (Cxx.do_get (c :: b)) as [v rest|v rest|rest];
    simpl; try reflexivity.
  - now rewrite <- IH.
  - now rewrite take_nil.
Qed.

Lemma parse_line_fields line :
  Main.parse_line line = resize 3 0%float (Main.numeric_fields 3 line).
Proof.
  unfold Main.parse_line.
  apply (extract_each_fields 3 (Cxx.open line)); [reflexivity|discriminate].
Qed.

Lemma parse_line_length line : length (Main.parse_line line) = 3%nat.
Proof. rewrite parse_line_fields. apply length_resize. Qed.

(** ** Filling the reference grid *)

Lemma for_range_S {A} start count (body : nat -> A -> option A) a :
  Main.for_range start (S count) body a =
  body start a ≫= Main.for_range (S start) count body.
Proof. reflexivity. Qed.

Lemma fill_row (rs : list (list double)) i g a b c r0 :
  rs !! i = Some [a; b; c] ->
  vg_values g !! i = Some r0 ->
  length r0 = 3%nat ->
  Main.for_range 0 3
    (fun s g => row ← rs !! i; v ← row !! s; VariablesGrid_set i s v g) g
  = Some {| vg_dim := vg_dim g; vg_grid := vg_grid g;
            vg_values := <[i:=[a; b; c]]> (vg_values g) |}.
Proof.
  intros Hrs Hg Hlen.
  destruct r0 as [|p [|q [|t [|]]]]; try discriminate.
  pose proof (lookup_lt_Some _ _ _ Hg) as Hi.
  simpl. rewrite Hrs. simpl.
  unfold VariablesGrid_set, DMatrix_set. simpl. rewrite Hg. simpl.
  rewrite list_lookup_insert_eq by assumption. simpl.
  rewrite list_insert_insert_eq.
  rewrite list_lookup_insert_eq by assumption. simpl.
  rewrite list_insert_insert_eq. reflexivity.
Qed.

Lemma fill_rows (rs : list (list double)) count : forall k g,
  (k + count <= length rs)%nat ->
  Forall (fun w => length w = 3%nat) rs ->
  vg_values g = take k rs ++ replicate count (DVector_new 3) ->
  Main.for_range k count
    (fun i g =>
       Main.for_range 0 3
         (fun s g => row ← rs !! i; v ← row !! s; VariablesGrid_set i s v g)
         g) g
  = Some {| vg_dim := vg_dim g; vg_grid := vg_grid g;
            vg_values := take (k + count) rs |}.
Proof.
  induction count as [|count IH]; intros k g Hk Hall Hg.
  - simpl. destruct g as [d gr vals]. simpl in *. subst vals.
    now rewrite app_nil_r, Nat.add_0_r.
  - assert (Hlt : (k < length rs)%nat) by lia.
    destruct (lookup_lt_is_Some_2 rs k Hlt) as [w Hw].
    pose proof (proj1 (Forall_lookup _ rs) Hall k w Hw) as Hlen.
    destruct w as [|a [|b [|c [|]]]]; try discriminate.
    assert (Htake : length (take k rs) = k) by (rewrite length_take; lia).
    assert (Hrow : vg_values g !! k = Some (DVector_new 3)).
    { rewrite Hg, lookup_app_r by lia. now rewrite Htake, Nat.sub_diag. }
    rewrite (for_range_S k count).
    rewrite (fill_row rs k g a b c _ Hw Hrow eq_refl). simpl.
    rewrite IH; simpl; [|lia|assumption|].
    + now rewrite Nat.add_succ_r.
    + rewrite Hg, insert_app_r_alt by lia.
      rewrite Htake, Nat.sub_diag. simpl.
      rewrite (take_S_r rs k _ Hw), <- app_assoc. reflexivity.
Qed.

Lemma fill_reference_grid_spec (rs : list (list double)) ts t0 t1 :
  (Z.to_nat ts <= length rs)%nat ->
  Forall (fun w => length w = 3%nat) rs ->
  Main.fill_reference_grid rs ts (VariablesGrid_new 3 t0 t1 ts)
  = Some {| vg_dim := 3;
            vg_grid := {| firstTime := t0; lastTime := t1; nPoints := ts |};
            vg_values := take (Z.to_nat ts) rs |}.
Proof.
  intros Hts Hall. unfold Main.fill_reference_grid.
  rewrite (fill_rows rs (Z.to_nat ts) 0); [reflexivity|lia|assumption|].
  reflexivity.
Qed.

(** ** The loaded path and the objects built from it *)

Lemma load_sound content st :
  Main.load content = Some st ->
  Main.ld_ref_states st = map Main.parse_line (Main.file_lines content)
  /\ Main.ld_num_waypoints st = Z.of_nat (length (Main.file_lines content))
  /\ Z.of_nat (length (Main.file_lines content)) <= INT_MAX
  /\ Main.read_line st = Some None.
Proof.
  unfold Main.load. intros Hload.
  apply read_loop_sound in Hload as (Hrs & Hn & Hmax & Hend);
    [|reflexivity|discriminate].
  simpl in Hrs, Hn, Hmax. rewrite Hn in Hmax.
  repeat split; try assumption. apply Hmax. unfold INT_MAX. lia.
Qed.

Lemma load_defined content :
  Z.of_nat (length (Main.file_lines content)) <= INT_MAX ->
  is_Some (Main.load content).
Proof.
  intros Hfit. apply read_loop_total; simpl;
    [reflexivity|discriminate|lia|unfold INT_MIN; lia|lia].
Qed.

Lemma load_fuel content fuel st :
  Main.read_loop fuel (Main.start content) = Some st ->
  Main.load content = Some st.
Proof.
  intros Hloop.
  pose proof Hloop as Hsound.
  apply read_loop_sound in Hsound as (_ & Hn & Hmax & _);
    [|reflexivity|discriminate].
  simpl in Hn, Hmax. rewrite Hn in Hmax.
  destruct (load_defined content) as [st' Hst'].
  { apply Hmax. unfold INT_MAX. lia. }
  rewrite Hst'. f_equal. apply (read_loop_fuel _ _ _ _ _ Hst' Hloop).
Qed.

Lemma parsed_lines_length3 (ls : list (list ascii)) :
  Forall (fun w => length w = 3%nat) (map Main.parse_line ls).
Proof. apply Forall_map, Forall_forall. intros. apply parse_line_length. Qed.

Lemma Q_value :
  Main.Q = Some (Main.diag [1.0; 1.0; 0.7; 1e-6; 1e-6]%float).
Proof. reflexivity. Qed.

Lemma setup_spec w rs :
  Forall (fun w => length w = 3%nat) (w :: rs) ->
  Z.of_nat (length (w :: rs)) <= INT_MAX ->
  let nw := Z.of_nat (length (w :: rs)) in
  let ts := nw - 1 in
  let dt := (Main.tTotal / double_of_int ts)%float in
  let tEnd := (Main.tStart + double_of_int Main.numSteps * dt)%float in
  let timeGrid :=
    {| firstTime := Main.tStart; lastTime := tEnd;
       nPoints := Main.numSteps |} in
  let reference_grid :=
    {| vg_dim := 3;
       vg_grid := {| firstTime := Main.tStart; lastTime := Main.tTotal;
                     nPoints := ts |};
       vg_values := take (length rs) (w :: rs) |} in
  let ocp :=
    {| ocp_grid := timeGrid;
       ocp_lsq :=
         [{| lsq_Q := Main.diag [1.0; 1.0; 0.7; 1e-6; 1e-6]%float;
             lsq_h := [Main.x; Main.y; Main.theta; Main.u0; Main.u1];
             lsq_r := replicate 5 0%float |}];
       ocp_dynamics := [Main.f];
       ocp_bounds :=
         [{| lb := 0.0%float; bounded := Main.x; ub := 200.0%float |};
          {| lb := 0.0%float; bounded := Main.y; ub := 200.0%float |};
          {| lb := (- M_PI)%float; bounded := Main.theta; ub := M_PI |};
          {| lb := (- 10.0)%float; bounded := Main.u0; ub := 10.0%float |};
          {| lb := (- (M_PI / 3))%float; bounded := Main.u1;
             ub := (M_PI / 3)%float |}] |} in
  let alg :=
    {| rta_ocp := ocp; rta_samplingTime := dt;
       rta_options :=
         [(KKT_TOLERANCE, Real 1e-8%float);
          (HESSIAN_APPROXIMATION, GAUSS_NEWTON);
          (DISCRETIZATION_TYPE, MULTIPLE_SHOOTING);
          (INTEGRATOR_TYPE, INT_RK45);
          (INFEASIBLE_QP_HANDLING, IQH_STOP);
          (LEVENBERG_MARQUARDT, Real 1e-4%float)] |} in
  let controller :=
    {| ctl_law := alg; ctl_reference := reference_grid |} in
  Main.setup (w :: rs) nw =
  Some {| Main.ref_states := w :: rs;
          Main.num_waypoints := nw;
          Main.totalSteps := ts;
          Main.dt := dt;
          Main.tEnd := tEnd;
          Main.timeGrid := timeGrid;
          Main.reference_grid := reference_grid;
          Main.ocp := ocp;
          Main.alg := alg;
          Main.controller := controller;
          Main.x0 := w;
          Main.sim := {| sim_start := 0.0%float; sim_end := Main.tTotal;
                         sim_process := Main.process;
                         sim_controller := controller |} |}.
Proof.
  intros Hall Hfit nw ts. unfold Main.setup. fold nw.
  assert (Hlen : Z.to_nat ts = length rs) by (subst ts nw; simpl length; lia).
  rewrite int_result_fits
    by (subst nw; unfold INT_MIN, INT_MAX in *; simpl length; lia).
  fold ts. rewrite Q_value. cbn [mbind option_bind].
  rewrite (fill_reference_grid_spec (w :: rs) ts)
    by (simpl length; lia || assumption).
  cbn [mbind option_bind]. rewrite Hlen.
  pose proof (Forall_inv Hall) as Hw.
  destruct w as [|a [|b [|c [|]]]]; try discriminate.
  reflexivity.
Qed.

Lemma main_on_lines content w rs :
  map Main.parse_line (Main.file_lines content) = w :: rs ->
  Z.of_nat (length (w :: rs)) <= INT_MAX ->
  Forall (fun w => length w = 3%nat) (w :: rs)
  /\ Main.main (Some content) =
     Main.Configured <$> Main.setup (w :: rs) (Z.of_nat (length (w :: rs))).
Proof.
  intros Hlines Hfit. split.
  { rewrite <- Hlines. apply parsed_lines_length3. }
  assert (Hn : length (Main.file_lines content) = length (w :: rs))
    by now rewrite <- Hlines, length_map.
  destruct (load_defined content) as [st Hst]; [now rewrite Hn|].
  destruct (load_sound content st Hst) as (Hrs & Hnw & _ & _).
  unfold Main.main. rewrite Hst. simpl. unfold Main.after_loading.
  now rewrite Hrs, Hnw, Hlines, Hn.
Qed.

Lemma main_configured_inv file c :
  Main.main file = Some (Main.Configured c) ->
  exists content w rs,
    file = Some content
    /\ map Main.parse_line (Main.file_lines content) = w :: rs
    /\ Forall (fun w => length w = 3%nat) (w :: rs)
    /\ Z.of_nat (length (w :: rs)) <= INT_MAX
    /\ Main.setup (w :: rs) (Z.of_nat (length (w :: rs))) = Some c.
Proof.
  destruct file as [content|]; [|discriminate].
  unfold Main.main. destruct (Main.load content) as [st|] eqn:Hst;
    [|discriminate].
  destruct (load_sound content st Hst) as (Hrs & Hnw & Hfit & _).
  simpl. unfold Main.after_loading. rewrite Hrs, Hnw.
  destruct (map Main.parse_line (Main.file_lines content))
    as [|w rs] eqn:Hl; [discriminate|].
  assert (Hn : length (Main.file_lines content) = length (w :: rs))
    by now rewrite <- Hl, length_map.
  rewrite Hn in *. simpl Cxx.is_nil. cbv iota. intros Hc.
  exists content, w, rs. repeat split; try assumption.
  - rewrite <- Hl. apply parsed_lines_length3.
  - destruct (Main.setup _ _); simpl in Hc; congruence.
Qed.

Lemma main_defined content :
  Z.of_nat (length (Main.file_lines content)) <= INT_MAX ->
  is_Some (Main.main (Some content)).
Proof.
  intros Hfit.
  destruct (map Main.parse_line (Main.file_lines content)) as [|w rs] eqn:Hl.
  - destruct (load_defined content Hfit) as [st Hst].
    destruct (load_sound content st Hst) as (Hrs & _).
    unfold Main.main. rewrite Hst. simpl. unfold Main.after_loading.
    rewrite Hrs, Hl. eauto.
  - assert (Hn : length (Main.file_lines content) = length (w :: rs))
      by now rewrite <- Hl, length_map.
    rewrite Hn in Hfit.
    destruct (main_on_lines content w rs Hl Hfit) as (Hall & Hmain).
    rewrite Hmain, (setup_spec _ _ Hall Hfit). eauto.
Qed.

(** From a run that reached the end of the set-up, the objects it built. *)
Ltac configured Hc :=
  let content := fresh "content" in
  let w := fresh "w" in
  let rs := fresh "rs" in
  let Hlines := fresh "Hlines" in
  let Hall := fresh "Hall" in
  let Hfit := fresh "Hfit" in
  let Hfile := fresh "Hfile" in
  apply main_configured_inv in Hc
    as (content & w & rs & Hfile & Hlines & Hall & Hfit & Hc);
  rewrite (setup_spec _ _ Hall Hfit) in Hc;
  injection Hc as <-;
  first [injection Hfile as <- | subst].

(** ** The claims *)


(** C2: loading reads the whole file, one waypoint per line.  For a file
    whose text has the lines [lines], loading ends (the counter is an
    [int], so this needs their number to fit one), and when it has ended no
    further line can be read, [ref_states] is the list of the waypoints
    parsed from the lines in order (so it has as many entries as there are
    lines, each of three components, entry [i] parsed from line [i]), and
    [num_waypoints] is the number of lines.  A configured run carries both
    on unchanged. *)
Theorem load_reads_every_line content :
  let lines := Main.file_lines content in
  let n := length lines in
  (Z.of_nat n <= INT_MAX -> is_Some (Main.load content))
  /\ forall st, Main.load content = Some st ->
       Main.read_line st = Some None
       /\ Main.ld_ref_states st = map Main.parse_line lines
       /\ length (Main.ld_ref_states st) = n
       /\ Forall (fun w => length w = 3%nat) (Main.ld_ref_states st)
       /\ (forall i l, lines !! i = Some l ->
             Main.ld_ref_states st !! i = Some (Main.parse_line l))
       /\ Main.ld_num_waypoints st = Z.of_nat n
       /\ (forall c, Main.main (Some content) = Some (Main.Configured c) ->
             Main.ref_states c = Main.ld_ref_states st
             /\ Main.num_waypoints c = Main.ld_num_waypoints st).
Proof.
  cbv zeta. split; [apply load_defined|]. intros st Hst.
  destruct (load_sound content st Hst) as (Hrs & Hn & Hfit & Hend).
  rewrite Hrs, Hn.
  split; [exact Hend|]. split; [reflexivity|].
  split; [now rewrite length_map|].
  split; [apply parsed_lines_length3|].
  split; [intros i l Hl; now rewrite list_lookup_fmap, Hl|].
  split; [reflexivity|].
  intros c Hc. configured Hc. split.
  - simpl. now rewrite Hlines.
  - cbn [Main.num_waypoints].
    change (S (length rs)) with (length (w :: rs)).
    now rewrite <- Hlines, length_map.
Qed.

(** C3: loading fails fast.  When the file cannot be opened, and when
    loading has stored no waypoint, the run ends with the error message on
    the standard error stream and the status EXIT_FAILURE, and nothing of
    the optimal control problem has been built; no waypoint is stored
    exactly when the file is empty; in every other case the run goes on
    to a full configuration that holds the loaded waypoints. *)
Theorem main_fails_fast :
  Main.main None =
    Some (Main.Exit ("cannot open reference state file!" ++ Main.endl)
                    EXIT_FAILURE)
  /\ forall content st,
      Main.load content = Some st ->
      (Main.ld_ref_states st = [] <-> content = [])
      /\ (Main.ld_ref_states st = [] ->
          Main.main (Some content) =
            Some (Main.Exit
                    ("failed to store the reference in ref_states!"
                       ++ Main.endl) EXIT_FAILURE))
      /\ (Main.ld_ref_states st <> [] ->
          exists c, Main.main (Some content) = Some (Main.Configured c)
                    /\ Main.ref_states c = Main.ld_ref_states st).
Proof.
  split; [reflexivity|]. intros content st Hst.
  destruct (load_sound content st Hst) as (Hrs & Hn & Hfit & _).
  split; [|split].
  - rewrite Hrs. split.
    + intros Hnil. apply fmap_nil_inv in Hnil. now apply file_lines_nil.
    + intros ->. reflexivity.
  - intros Hnil. unfold Main.main. rewrite Hst. simpl.
    unfold Main.after_loading. now rewrite Hnil.
  - intros Hne. rewrite Hrs in *.
    destruct (map Main.parse_line (Main.file_lines content))
      as [|w rs] eqn:Hl; [congruence|].
    assert (Hlen : length (Main.file_lines content) = length (w :: rs))
      by now rewrite <- Hl, length_map.
    rewrite Hlen in Hfit.
    destruct (main_on_lines content w rs Hl Hfit) as (Hall & Hmain).
    rewrite Hmain, (setup_spec _ _ Hall Hfit). eexists. split; reflexivity.
Qed.



(** C6: a file of one line passes the only guard and divides by zero.
    For every file with exactly one line the run is not stopped: it is
    configured with one waypoint, [totalSteps] is 0, and [dt] is the
    quotient of [tTotal] by that zero, which in binary64 arithmetic is
    plus infinity. *)
Theorem one_line_file_divides_by_zero content :
  length (Main.file_lines content) = 1%nat ->
  exists c,
    Main.main (Some content) = Some (Main.Configured c)
    /\ Main.ref_states c <> []
    /\ Main.num_waypoints c = 1
    /\ Main.totalSteps c = 0
    /\ double_of_int (Main.totalSteps c) = 0%float
    /\ Main.dt c = (Main.tTotal / double_of_int (Main.totalSteps c))%float
    /\ Main.dt c = infinity.
Proof.
  intros Hone.
  destruct (map Main.parse_line (Main.file_lines content)) as [|w rs] eqn:Hl.
  { apply (f_equal length) in Hl. rewrite length_map, Hone in Hl.
    discriminate. }
  assert (Hlen : length (w :: rs) = 1%nat)
    by now rewrite <- Hl, length_map.
  destruct rs as [|w' rs]; [clear Hlen|discriminate].
  assert (Hfit : Z.of_nat (length [w]) <= INT_MAX) by (unfold INT_MAX; simpl; lia).
  destruct (main_on_lines content w [] Hl Hfit) as (Hall & Hmain).
  rewrite Hmain, (setup_spec _ _ Hall Hfit). eexists.
  split; [reflexivity|]. repeat split. discriminate.
Qed.

(** C7: the last waypoint never reaches the tracking reference.  In
    every configured run [num_waypoints] is the number of loaded
    waypoints; when it is at least 2, [totalSteps] is [num_waypoints - 1],
    and the reference grid given to the controller holds exactly the
    waypoints of index 0 to [num_waypoints - 2]: it has no row for the
    last waypoint, the one of index [num_waypoints - 1], and it is the
    same grid whatever three numbers that waypoint holds. *)
Theorem reference_grid_omits_last_waypoint file c :
  Main.main file = Some (Main.Configured c) ->
  2 <= Main.num_waypoints c ->
  let n := Z.to_nat (Main.num_waypoints c) in
  n = length (Main.ref_states c)
  /\ Main.totalSteps c = Main.num_waypoints c - 1
  /\ last (Main.ref_states c) = Main.ref_states c !! (n - 1)%nat
  /\ vg_values (Main.reference_grid c) = take (n - 1) (Main.ref_states c)
  /\ length (vg_values (Main.reference_grid c)) = (n - 1)%nat
  /\ (forall i, (i < n - 1)%nat ->
        vg_values (Main.reference_grid c) !! i = Main.ref_states c !! i)
  /\ (forall i, (n - 1 <= i)%nat ->
        vg_values (Main.reference_grid c) !! i = None)
  /\ (forall w, length w = 3%nat ->
        Main.fill_reference_grid
          (<[(n - 1)%nat := w]> (Main.ref_states c)) (Main.totalSteps c)
          (VariablesGrid_new 3 Main.tStart Main.tTotal (Main.totalSteps c))
        = Some (Main.reference_grid c))
  /\ ctl_reference (Main.controller c) = Main.reference_grid c.
Proof.
  intros Hc. configured Hc. intros Hnw n.
  cbn [Main.num_waypoints Main.totalSteps Main.ref_states
       Main.reference_grid Main.controller vg_values ctl_reference] in *.
  assert (Hn : n = length (w :: rs)) by (subst n; simpl length; lia).
  assert (Hn1 : (n - 1)%nat = length rs) by (rewrite Hn; simpl; lia).
  rewrite Hn1.
  split; [exact Hn|]. split; [reflexivity|].
  split; [rewrite last_lookup; reflexivity|].
  split; [reflexivity|].
  split; [rewrite length_take; simpl; lia|].
  split; [intros i Hi; now apply lookup_take_lt|].
  split; [intros i Hi; now apply lookup_take_ge|].
  split; [|reflexivity].
  intros w' Hw'. rewrite fill_reference_grid_spec.
  - replace (Z.to_nat (Z.of_nat (S (length rs)) - 1)) with (length rs)
      by lia.
    rewrite take_insert_ge by lia. reflexivity.
  - rewrite length_insert. simpl length. lia.
  - apply Forall_insert; assumption.
Qed.

Lemma numeric_fields_length n : forall s,
  (length (Main.numeric_fields n s) <= n)%nat.
Proof.
  induction n as [|n IH]; intros s; simpl; [lia|].
  destruct (Cxx.skipws s) as [|c b]; simpl; [lia|].
  destruct (Cxx.do_get (c :: b)) as [v rest|v rest|rest]; simpl; try lia.
  specialize (IH rest). lia.
Qed.

(** C9: parsing a line never fails and loses what does not fit.  Every
    line yields a waypoint of three components, obtained by exactly three
    extractions, one after the other on the same stream, each into a cell
    that holds zero.  The waypoint is made of the first three numeric
    fields of the line, in order, followed by zeros when there are fewer
    than three: so every component without a field is 0.0, and whatever
    follows the third field has no effect. *)
Theorem parse_line_total_lossy line :
  length (Main.parse_line line) = 3%nat
  /\ (let '(iss1, a) := Cxx.extract_double (Cxx.open line) 0%float in
      let '(iss2, b) := Cxx.extract_double iss1 0%float in
      let '(_, c) := Cxx.extract_double iss2 0%float in
      Main.parse_line line = [a; b; c])
  /\ (forall extra,
        Main.parse_line line =
        resize 3 0%float (Main.numeric_fields (3 + extra) line))
  /\ (forall i v, Main.numeric_fields 3 line !! i = Some v ->
        Main.parse_line line !! i = Some v)
  /\ (forall i, (length (Main.numeric_fields 3 line) <= i < 3)%nat ->
        Main.parse_line line !! i = Some 0%float).
Proof.
  pose proof (numeric_fields_length 3 line) as Hlen.
  split; [apply parse_line_length|]. split.
  { unfold Main.parse_line. simpl.
    destruct (Cxx.extract_double (Cxx.open line) 0%float) as [iss1 a].
    destruct (Cxx.extract_double iss1 0%float) as [iss2 b].
    destruct (Cxx.extract_double iss2 0%float) as [iss3 c]. reflexivity. }
  split.
  { intros extra.
    now rewrite parse_line_fields, (numeric_fields_take 3 extra),
      resize_take_eq. }
  rewrite parse_line_fields, resize_spec. split.
  - intros i v Hv. pose proof (lookup_lt_Some _ _ _ Hv) as Hi.
    rewrite take_ge by lia. now rewrite lookup_app_l.
  - intros i Hi. rewrite take_ge by lia.
    rewrite lookup_app_r by lia. apply lookup_replicate_2. lia.
Qed.

End Correctness.

(** * The claims on the two reference files

    Each theorem that has premises is applied here to a concrete file, read
    with the facet [Cxx.decimal_num_get]. *)


Lemma load_reads_every_line_witness :
  Main.file_lines Examples.three_lines
  = map list_ascii_of_string ["1 2 3"; "4 5"; "7 8 9 10"]%string
  /\ Z.of_nat (length (Main.file_lines Examples.three_lines)) <= INT_MAX
  /\ exists st,
       @Main.load Cxx.decimal_num_get Examples.three_lines = Some st
       /\ Main.ld_ref_states st
          = [[1; 2; 3]; [4; 5; 0]; [7; 8; 9]]%float
       /\ Main.ld_num_waypoints st = 3.
Proof.
  split; [reflexivity|]. split; [vm_compute; discriminate|].
  destruct (@load_reads_every_line Cxx.decimal_num_get Examples.three_lines)
    as [Hdefined Hloaded].
  destruct Hdefined as [st Hst]; [vm_compute; discriminate|].
  exists st. split; [exact Hst|].
  destruct (Hloaded st Hst) as (_ & Hrs & _ & _ & _ & Hn & _).
  split; [rewrite Hrs|rewrite Hn]; vm_compute; reflexivity.
Defined.

Lemma main_fails_fast_witness :
  @Main.main Cxx.decimal_num_get (Some [])
    = Some (Main.Exit
              ("failed to store the reference in ref_states!" ++ Main.endl)
              EXIT_FAILURE)
  /\ exists c,
       @Main.main Cxx.decimal_num_get (Some Examples.one_line)
         = Some (Main.Configured c).
Proof.
  destruct (@main_fails_fast Cxx.decimal_num_get) as [_ Hcontent].
  split.
  - destruct (@Main.load Cxx.decimal_num_get []) as [st|] eqn:Hst;
      [|vm_compute in Hst; discriminate].
    destruct (Hcontent [] st Hst) as (Hiff & Hempty & _).
    apply Hempty, Hiff. reflexivity.
  - destruct (@Main.load Cxx.decimal_num_get Examples.one_line)
      as [st|] eqn:Hst; [|vm_compute in Hst; discriminate].
    destruct (Hcontent _ st Hst) as (Hiff & _ & Hgo).
    destruct Hgo as (c & Hc & _); [|exists c; exact Hc].
    intros Hnil. apply Hiff in Hnil. discriminate.
Defined.



Lemma one_line_file_divides_by_zero_witness :
  length (Main.file_lines Examples.one_line) = 1%nat
  /\ exists c,
       @Main.main Cxx.decimal_num_get (Some Examples.one_line)
         = Some (Main.Configured c)
       /\ Main.totalSteps c = 0
       /\ Main.dt c = infinity.
Proof.
  split; [reflexivity|].
  destruct (@one_line_file_divides_by_zero Cxx.decimal_num_get
              Examples.one_line eq_refl)
    as (c & Hc & _ & _ & Hts & _ & _ & Hdt).
  exists c. auto.
Defined.

Lemma reference_grid_omits_last_waypoint_witness :
  exists c,
    @Main.main Cxx.decimal_num_get (Some Examples.three_lines)
      = Some (Main.Configured c)
    /\ 2 <= Main.num_waypoints c
    /\ last (Main.ref_states c) = Some [7; 8; 9]%float
    /\ ACADO.vg_values (Main.reference_grid c)
       = [[1; 2; 3]; [4; 5; 0]]%float.
Proof.
  eexists. split; [vm_compute; reflexivity|].
  split; [vm_compute; discriminate|].
  destruct (@reference_grid_omits_last_waypoint Cxx.decimal_num_get
              (Some Examples.three_lines) _
              ltac:(vm_compute; reflexivity) ltac:(vm_compute; discriminate))
    as (_ & _ & _ & Hgrid & _).
  split; [|rewrite Hgrid]; vm_compute; reflexivity.
Defined.

Lemma parse_line_total_lossy_witness :
  let line := list_ascii_of_string "4 5" in
  @Main.numeric_fields Cxx.decimal_num_get 3 line !! 1%nat = Some 5%float
  /\ @Main.parse_line Cxx.decimal_num_get line !! 1%nat = Some 5%float
  /\ (length (@Main.numeric_fields Cxx.decimal_num_get 3 line) <= 2 < 3)%nat
  /\ @Main.parse_line Cxx.decimal_num_get line !! 2%nat = Some 0%float.
Proof.
  intros line.
  destruct (@parse_line_total_lossy Cxx.decimal_num_get line)
    as (_ & _ & _ & Hfield & Hmissing).
  assert (Hf : @Main.numeric_fields Cxx.decimal_num_get 3 line !! 1%nat
               = Some 5%float) by (vm_compute; reflexivity).
  assert (Hk : (length (@Main.numeric_fields Cxx.decimal_num_get 3 line)
                <= 2 < 3)%nat) by (vm_compute; lia).
  split; [exact Hf|]. split; [exact (Hfield _ _ Hf)|].
  split; [exact Hk|exact (Hmissing _ Hk)].
Defined.

(** * Further properties of the loading code *)

Lemma skipws_app_blank ws l :
  Forall (fun c => Cxx.isspace c = true) ws ->
  Cxx.skipws (ws ++ l) = Cxx.skipws l.
Proof.
  induction 1 as [|c ws Hc _ IH]; [reflexivity|].
  simpl. now rewrite Hc.
Qed.

Lemma file_lines_cons_nonempty c s : Main.file_lines (c :: s) <> [].
Proof. rewrite take_line_lines. discriminate. Qed.

Lemma file_lines_count s :
  length (Main.file_lines s) =
  (length (List.filter Cxx.is_newline s)
   + match last s with
     | Some c => if Cxx.is_newline c then 0 else 1
     | None => 0
     end)%nat.
Proof.
  induction s as [|c s IH]; [reflexivity|].
  destruct s as [|c' s].
  - simpl. destruct (Cxx.is_newline c); reflexivity.
  - change (last (c :: c' :: s)) with (last (c' :: s)).
    pose proof (file_lines_cons_nonempty c' s) as Hne.
    remember (c' :: s) as t eqn:Ht. simpl.
    destruct (Cxx.is_newline c); simpl; [now rewrite IH|].
    destruct (Main.file_lines t) as [|l ls]; [congruence|].
    simpl in *. exact IH.
Qed.

Lemma file_lines_app s t :
  Main.file_lines (s ++ "010"%char :: t) =
  Main.file_lines (s ++ ["010"%char]) ++ Main.file_lines t.
Proof.
  induction s as [|c s IH]; [reflexivity|].
  simpl. destruct (Cxx.is_newline c); [now rewrite IH|].
  rewrite IH.
  destruct (Main.file_lines (s ++ ["010"%char])) as [|l ls] eqn:Hl;
    [|reflexivity].
  apply file_lines_nil in Hl. destruct s; discriminate.
Qed.

Lemma file_lines_snoc_newline s :
  Main.file_lines (s ++ ["010"%char]) =
  match last s with
  | Some c =>
      if Cxx.is_newline c then Main.file_lines s ++ [[]]
      else Main.file_lines s
  | None => [[]]
  end.
Proof.
  induction s as [|c s IH]; [reflexivity|].
  destruct s as [|c' s].
  - simpl. destruct (Cxx.is_newline c); reflexivity.
  - change (last (c :: c' :: s)) with (last (c' :: s)) in *.
    pose proof (file_lines_cons_nonempty c' s) as Hne.
    remember (c' :: s) as t eqn:Ht.
    change ((c :: t) ++ ["010"%char]) with (c :: (t ++ ["010"%char])).
    simpl. rewrite IH.
    assert (Hlast : is_Some (last t)) by (subst t; apply last_is_Some; easy).
    destruct Hlast as [d Hd]. rewrite Hd.
    destruct (Main.file_lines t) as [|l ls]; [congruence|].
    destruct (Cxx.is_newline c), (Cxx.is_newline d); reflexivity.
Qed.

Section More_loading.
Context `{Cxx.NumGet}.

Lemma parse_blank_line l :
  Forall (fun c => Cxx.isspace c = true) l ->
  Main.parse_line l = [0; 0; 0]%float.
Proof.
  intros Hl. rewrite parse_line_fields. simpl.
  rewrite <- (app_nil_r l), (skipws_app_blank l [] Hl). reflexivity.
Qed.

(** X1: blank lines are not skipped.  Every line of the file that holds
    blanks only (an empty line too) is stored as the waypoint (0, 0, 0), at
    the position of the line. *)
Theorem blank_lines_give_zero_waypoints content st i l :
  Main.load content = Some st ->
  Main.file_lines content !! i = Some l ->
  Forall (fun c => Cxx.isspace c = true) l ->
  Main.ld_ref_states st !! i = Some [0; 0; 0]%float.
Proof.
  intros Hst Hl Hblank.
  destruct (load_sound content st Hst) as (Hrs & _).
  now rewrite Hrs, list_lookup_fmap, Hl, <- (parse_blank_line l Hblank).
Qed.

(** X2: blanks at the start of a line do not change its waypoint. *)
Theorem leading_blanks_are_skipped ws line :
  Forall (fun c => Cxx.isspace c = true) ws ->
  Main.parse_line (ws ++ line) = Main.parse_line line.
Proof.
  intros Hws. rewrite !parse_line_fields. f_equal.
  simpl. now rewrite (skipws_app_blank ws line Hws).
Qed.

(** X3: the number of waypoints is the number of newline characters of
    the file, plus one when the file does not end with a newline (and is
    not empty). *)
Theorem waypoint_count_counts_newlines content st :
  Main.load content = Some st ->
  let newlines := length (List.filter Cxx.is_newline content) in
  let unfinished :=
    match last content with
    | Some c => if Cxx.is_newline c then 0%nat else 1%nat
    | None => 0%nat
    end in
  Main.ld_num_waypoints st = Z.of_nat (newlines + unfinished)
  /\ length (Main.ld_ref_states st) = (newlines + unfinished)%nat.
Proof.
  intros Hst. cbv zeta.
  destruct (load_sound content st Hst) as (Hrs & Hn & _).
  rewrite Hrs, Hn, length_map, file_lines_count. auto.
Qed.

End More_loading.

Section More_loading_files.
Context `{Cxx.NumGet}.

(** X4: the newline after the last line is optional.  A file whose last
    character is not a newline gives the same waypoints, and the same
    count, when a newline is added at its end. *)
Theorem final_newline_is_optional content c st :
  last content = Some c ->
  Cxx.is_newline c = false ->
  Main.load content = Some st ->
  exists st',
    Main.load (content ++ ["010"%char]) = Some st'
    /\ Main.ld_ref_states st' = Main.ld_ref_states st
    /\ Main.ld_num_waypoints st' = Main.ld_num_waypoints st.
Proof.
  intros Hlast Hc Hst.
  destruct (load_sound content st Hst) as (Hrs & Hn & Hfit & _).
  assert (Hlines : Main.file_lines (content ++ ["010"%char])
                   = Main.file_lines content)
    by now rewrite file_lines_snoc_newline, Hlast, Hc.
  destruct (load_defined (content ++ ["010"%char])) as [st' Hst'];
    [now rewrite Hlines|].
  destruct (load_sound _ st' Hst') as (Hrs' & Hn' & _).
  exists st'. rewrite Hrs', Hn', Hlines. auto.
Qed.

(** X5: a newline after a finished last line is one more line.  When the
    file is empty or ends with a newline, one more newline at its end adds
    the waypoint (0, 0, 0) and one to the count: a file that holds a single
    newline has one waypoint. *)
Theorem blank_last_line_adds_zero_waypoint content st st' :
  match last content with
  | Some c => Cxx.is_newline c = true
  | None => True
  end ->
  Main.load content = Some st ->
  Main.load (content ++ ["010"%char]) = Some st' ->
  Main.ld_ref_states st' = Main.ld_ref_states st ++ [[0; 0; 0]%float]
  /\ Main.ld_num_waypoints st' = Main.ld_num_waypoints st + 1.
Proof.
  intros Hlast Hst Hst'.
  destruct (load_sound content st Hst) as (Hrs & Hn & _).
  destruct (load_sound _ st' Hst') as (Hrs' & Hn' & _).
  assert (Hlines : Main.file_lines (content ++ ["010"%char])
                   = Main.file_lines content ++ [[]]).
  { rewrite file_lines_snoc_newline.
    destruct (last content) as [c|] eqn:Hc; [now rewrite Hlast|].
    apply last_None in Hc. now subst content. }
  rewrite Hrs', Hn', Hrs, Hn, Hlines, map_app, length_app. simpl.
  rewrite (parse_blank_line [] (List.Forall_nil _)). split; [reflexivity|lia].
Qed.

(** X6: loading composes over concatenation at a line end.  The waypoints
    of a file made of a first part that ends with a newline and a second
    part are those of the first part followed by those of the second, and
    the counts add up. *)
Theorem loading_composes c1 c2 st :
  Main.load (c1 ++ "010"%char :: c2) = Some st ->
  exists st1 st2,
    Main.load (c1 ++ ["010"%char]) = Some st1
    /\ Main.load c2 = Some st2
    /\ Main.ld_ref_states st
       = Main.ld_ref_states st1 ++ Main.ld_ref_states st2
    /\ Main.ld_num_waypoints st
       = Main.ld_num_waypoints st1 + Main.ld_num_waypoints st2.
Proof.
  intros Hst.
  destruct (load_sound _ st Hst) as (Hrs & Hn & Hfit & _).
  rewrite file_lines_app in Hrs, Hn, Hfit. rewrite length_app in Hn, Hfit.
  destruct (load_defined (c1 ++ ["010"%char])) as [st1 Hst1]; [lia|].
  destruct (load_defined c2) as [st2 Hst2]; [lia|].
  destruct (load_sound _ st1 Hst1) as (Hrs1 & Hn1 & _).
  destruct (load_sound _ st2 Hst2) as (Hrs2 & Hn2 & _).
  exists st1, st2. rewrite Hrs, Hn, Hrs1, Hn1, Hrs2, Hn2, map_app.
  repeat split; try assumption. lia.
Qed.

(** X7: the configuration phase is free of undefined behaviour exactly
    when the number of lines fits an [int].  For such a file no access to
    [ref_states], to the reference grid, to [Q] or to [x0] is out of range
    and no [int] overflows; for a longer file the waypoint counter
    overflows. *)
Theorem main_is_defined_iff_count_fits content :
  is_Some (Main.main (Some content))
  <-> Z.of_nat (length (Main.file_lines content)) <= INT_MAX.
Proof.
  split; [|apply main_defined].
  intros [o Ho]. unfold Main.main in Ho.
  destruct (Main.load content) as [st|] eqn:Hst; [|discriminate].
  now destruct (load_sound content st Hst) as (_ & _ & Hfit & _).
Qed.

(** X8: with a single waypoint the time horizon is infinite and the
    reference is empty.  For every file of exactly one line, the sampling
    time of the algorithm and the end of the time grid of the problem are
    plus infinity, and the reference grid given to the controller has no
    point. *)
Theorem one_line_file_has_infinite_horizon content :
  length (Main.file_lines content) = 1%nat ->
  exists c,
    Main.main (Some content) = Some (Main.Configured c)
    /\ Main.tEnd c = infinity
    /\ ACADO.lastTime (ACADO.ocp_grid (Main.ocp c)) = infinity
    /\ ACADO.rta_samplingTime (Main.alg c) = infinity
    /\ ACADO.nPoints (ACADO.vg_grid (Main.reference_grid c)) = 0
    /\ ACADO.vg_values (ACADO.ctl_reference (Main.controller c)) = [].
Proof.
  intros Hone.
  destruct (map Main.parse_line (Main.file_lines content)) as [|w rs] eqn:Hl.
  { apply (f_equal length) in Hl. rewrite length_map, Hone in Hl.
    discriminate. }
  assert (Hlen : length (w :: rs) = 1%nat)
    by now rewrite <- Hl, length_map.
  destruct rs as [|w' rs]; [clear Hlen|discriminate].
  assert (Hfit : Z.of_nat (length [w]) <= INT_MAX)
    by (unfold INT_MAX; simpl; lia).
  destruct (main_on_lines content w [] Hl Hfit) as (Hall & Hmain).
  rewrite Hmain, (setup_spec _ _ Hall Hfit). eexists.
  split; [reflexivity|]. repeat split.
Qed.

(** X9: the simulation starts on the reference.  In every configured run
    with at least two waypoints, the initial state [x0] has three
    components and is the first point of the reference grid. *)
Theorem initial_state_is_first_reference_point file c :
  Main.main file = Some (Main.Configured c) ->
  2 <= Main.num_waypoints c ->
  length (Main.x0 c) = 3%nat
  /\ ACADO.vg_values (Main.reference_grid c) !! 0%nat = Some (Main.x0 c).
Proof.
  intros Hc Hnw.
  apply main_configured_inv in Hc
    as (content & w & rs & -> & Hlines & Hall & Hfit & Hc).
  rewrite (setup_spec _ _ Hall Hfit) in Hc. injection Hc as <-.
  cbn [Main.num_waypoints Main.x0 Main.reference_grid ACADO.vg_values] in *.
  split; [exact (Forall_inv Hall)|].
  destruct rs as [|w' rs]; [simpl in Hnw; lia|reflexivity].
Qed.

End More_loading_files.

(** * Properties of the simulation and output code *)

Lemma write_nil os : Run.write os [] = os.
Proof.
  unfold Run.write. destruct os as [w [|]]; simpl; [reflexivity|].
  now rewrite app_nil_r.
Qed.

Lemma write_app os t1 t2 :
  Run.write (Run.write os t1) t2 = Run.write os (t1 ++ t2).
Proof.
  unfold Run.write. destruct os as [w [|]]; simpl; [reflexivity|].
  now rewrite app_assoc.
Qed.

Lemma file_of_write opens text :
  Run.file_of (Run.write (Run.ofstream_open opens) text) =
  if opens then Some text else None.
Proof. destruct opens; reflexivity. Qed.

Lemma for_range_ext {A} (b1 b2 : nat -> A -> option A) count : forall k a,
  (forall i a, b1 i a = b2 i a) ->
  Main.for_range k count b1 a = Main.for_range k count b2 a.
Proof.
  induction count as [|count IH]; intros k a Hb; [reflexivity|].
  simpl. rewrite Hb. destruct (b2 k a); simpl; auto.
Qed.

(** A loop whose body writes one text, if it has one, per turn. *)
Lemma for_range_write (f : nat -> option (list ascii)) count : forall k os,
  Main.for_range k count (fun i os => t ← f i; Some (Run.write os t)) os
  = (ts ← mapM f (seq k count); Some (Run.write os (concat ts))).
Proof.
  induction count as [|count IH]; intros k os.
  - simpl. now rewrite write_nil.
  - simpl. destruct (f k) as [t|]; simpl; [|reflexivity].
    rewrite IH. destruct (mapM f (seq (S k) count)) as [ts|]; simpl;
      [|reflexivity].
    now rewrite write_app.
Qed.

Section Simulation.
Context `{Run.NumPut} `{Run.Toolkit} `{Cxx.NumGet}.
Import ACADO.

Lemma write_states_texts g os :
  Run.write_states g os =
  (n ← Run.bound g;
   ts ← mapM (fun i =>
                a ← Run.at_ g i 0; b ← Run.at_ g i 1; c ← Run.at_ g i 2;
                _ ← int_result (Z.of_nat i + 1);
                Some (Run.put_double a ++ Run.space ++ Run.put_double b
                        ++ Run.space ++ Run.put_double c ++ Run.newline))
             (seq 0 (Z.to_nat n));
   Some (Run.write os (concat ts))).
Proof.
  unfold Run.write_states, Run.for_int.
  destruct (Run.bound g) as [n|]; simpl; [|reflexivity].
  rewrite <- for_range_write. apply for_range_ext. intros i a.
  destruct (Run.at_ g i 0), (Run.at_ g i 1), (Run.at_ g i 2),
    (int_result (Z.of_nat i + 1)); simpl; try reflexivity.
  rewrite !write_app, <- ?app_assoc. reflexivity.
Qed.

Lemma write_controls_texts g os :
  Run.write_controls g os =
  (n ← Run.bound g;
   ts ← mapM (fun i =>
                a ← Run.at_ g i 0; b ← Run.at_ g i 1;
                _ ← int_result (Z.of_nat i + 1);
                Some (Run.put_double a ++ Run.space ++ Run.put_double b
                        ++ Run.newline))
             (seq 0 (Z.to_nat n));
   Some (Run.write os (concat ts))).
Proof.
  unfold Run.write_controls, Run.for_int.
  destruct (Run.bound g) as [n|]; simpl; [|reflexivity].
  rewrite <- for_range_write. apply for_range_ext. intros i a.
  destruct (Run.at_ g i 0), (Run.at_ g i 1),
    (int_result (Z.of_nat i + 1)); simpl; try reflexivity.
  rewrite !write_app, <- ?app_assoc. reflexivity.
Qed.

Lemma states_texts_sound g n : forall k ts,
  mapM (fun i =>
          a ← Run.at_ g i 0; b ← Run.at_ g i 1; c ← Run.at_ g i 2;
          _ ← int_result (Z.of_nat i + 1);
          Some (Run.put_double a ++ Run.space ++ Run.put_double b
                  ++ Run.space ++ Run.put_double c ++ Run.newline))
       (seq k n) = Some ts ->
  ts = map Run.states_line (take n (drop k (vg_values g)))
  /\ (n <> 0%nat ->
      (k + n <= length (vg_values g))%nat /\ Z.of_nat (k + n) <= INT_MAX).
Proof.
  induction n as [|n IH]; intros k ts Hts.
  { simpl in Hts. injection Hts as <-. now rewrite take_0. }
  simpl in Hts.
  destruct (Run.at_ g k 0) as [a|] eqn:Ha; simpl in Hts; [|discriminate].
  destruct (Run.at_ g k 1) as [b|] eqn:Hb; simpl in Hts; [|discriminate].
  destruct (Run.at_ g k 2) as [c|] eqn:Hc; simpl in Hts; [|discriminate].
  destruct (int_result (Z.of_nat k + 1)) as [k1|] eqn:Hk; simpl in Hts;
    [|discriminate].
  apply int_result_Some in Hk as [_ Hk].
  match type of Hts with context [mapM ?f (seq (S k) n)] =>
    destruct (mapM f (seq (S k) n)) as [ts'|] eqn:Hts'; simpl in Hts;
      [|discriminate] end.
  injection Hts as <-. apply IH in Hts' as [-> Hrange].
  unfold Run.at_ in Ha, Hb, Hc.
  destruct (vg_values g !! k) as [row|] eqn:Hrow; [|discriminate].
  destruct row as [|a' [|b' [|c' row]]]; try discriminate.
  simpl in Ha, Hb, Hc. injection Ha as ->. injection Hb as ->.
  injection Hc as ->.
  rewrite (drop_S _ _ _ Hrow). split; [reflexivity|]. intros _.
  pose proof (lookup_lt_Some _ _ _ Hrow) as Hlt.
  destruct n as [|n]; [lia|]. destruct Hrange as [? ?]; [easy|]. lia.
Qed.

Lemma controls_texts_sound g n : forall k ts,
  mapM (fun i =>
          a ← Run.at_ g i 0; b ← Run.at_ g i 1;
          _ ← int_result (Z.of_nat i + 1);
          Some (Run.put_double a ++ Run.space ++ Run.put_double b
                  ++ Run.newline))
       (seq k n) = Some ts ->
  ts = map Run.controls_line (take n (drop k (vg_values g)))
  /\ (n <> 0%nat ->
      (k + n <= length (vg_values g))%nat /\ Z.of_nat (k + n) <= INT_MAX).
Proof.
  induction n as [|n IH]; intros k ts Hts.
  { simpl in Hts. injection Hts as <-. now rewrite take_0. }
  simpl in Hts.
  destruct (Run.at_ g k 0) as [a|] eqn:Ha; simpl in Hts; [|discriminate].
  destruct (Run.at_ g k 1) as [b|] eqn:Hb; simpl in Hts; [|discriminate].
  destruct (int_result (Z.of_nat k + 1)) as [k1|] eqn:Hk; simpl in Hts;
    [|discriminate].
  apply int_result_Some in Hk as [_ Hk].
  match type of Hts with context [mapM ?f (seq (S k) n)] =>
    destruct (mapM f (seq (S k) n)) as [ts'|] eqn:Hts'; simpl in Hts;
      [|discriminate] end.
  injection Hts as <-. apply IH in Hts' as [-> Hrange].
  unfold Run.at_ in Ha, Hb.
  destruct (vg_values g !! k) as [row|] eqn:Hrow; [|discriminate].
  destruct row as [|a' [|b' row]]; try discriminate.
  simpl in Ha, Hb. injection Ha as ->. injection Hb as ->.
  rewrite (drop_S _ _ _ Hrow). split; [reflexivity|]. intros _.
  pose proof (lookup_lt_Some _ _ _ Hrow) as Hlt.
  destruct n as [|n]; [lia|]. destruct Hrange as [? ?]; [easy|]. lia.
Qed.

(** What a completed writing loop has written. *)
Lemma write_states_sound g os os' :
  Run.write_states g os = Some os' ->
  exists n,
    Run.bound g = Some n
    /\ (Z.to_nat n <= length (vg_values g))%nat
    /\ Z.of_nat (Z.to_nat n) <= INT_MAX
    /\ os' = Run.write os
               (concat (map Run.states_line
                            (take (Z.to_nat n) (vg_values g)))).
Proof.
  rewrite write_states_texts. intros Hw.
  destruct (Run.bound g) as [n|]; [|discriminate]. simpl in Hw.
  match type of Hw with context [mapM ?f ?l] =>
    destruct (mapM f l) as [ts|] eqn:Hts; [|discriminate] end.
  injection Hw as <-. apply states_texts_sound in Hts as [-> Hrange].
  exists n. split; [reflexivity|].
  assert (Hn : (Z.to_nat n <= length (vg_values g))%nat
               /\ Z.of_nat (Z.to_nat n) <= INT_MAX).
  { destruct (Z.to_nat n) as [|m] eqn:Hm; [unfold INT_MAX; lia|].
    destruct Hrange; [easy|lia]. }
  destruct Hn. repeat split; assumption.
Qed.

Lemma write_controls_sound g os os' :
  Run.write_controls g os = Some os' ->
  exists n,
    Run.bound g = Some n
    /\ (Z.to_nat n <= length (vg_values g))%nat
    /\ Z.of_nat (Z.to_nat n) <= INT_MAX
    /\ os' = Run.write os
               (concat (map Run.controls_line
                            (take (Z.to_nat n) (vg_values g)))).
Proof.
  rewrite write_controls_texts. intros Hw.
  destruct (Run.bound g) as [n|]; [|discriminate]. simpl in Hw.
  match type of Hw with context [mapM ?f ?l] =>
    destruct (mapM f l) as [ts|] eqn:Hts; [|discriminate] end.
  injection Hw as <-. apply controls_texts_sound in Hts as [-> Hrange].
  exists n. split; [reflexivity|].
  assert (Hn : (Z.to_nat n <= length (vg_values g))%nat
               /\ Z.of_nat (Z.to_nat n) <= INT_MAX).
  { destruct (Z.to_nat n) as [|m] eqn:Hm; [unfold INT_MAX; lia|].
    destruct Hrange; [easy|lia]. }
  destruct Hn. repeat split; assumption.
Qed.

Lemma main_exit_inv file stderr status :
  Main.main file = Some (Main.Exit stderr status) ->
  status = EXIT_FAILURE /\ stderr <> ""%string.
Proof.
  unfold Main.main. destruct file as [content|].
  - destruct (Main.load content) as [st|]; [|discriminate]. simpl.
    unfold Main.after_loading.
    destruct (Cxx.is_nil (Main.ld_ref_states st)).
    + intros [= <- <-]. split; [reflexivity|discriminate].
    + destruct (Main.setup _ _); discriminate.
  - intros [= <- <-]. split; [reflexivity|discriminate].
Qed.

(** X10: how [main] ends.  A completed run returns 0 or EXIT_FAILURE.  It
    returns 0 exactly when the reference path was loaded and configured and
    both [sim.init] and [sim.run] succeeded; on EXIT_FAILURE neither output
    file has been opened; and a failure of the simulation itself is
    silent: [main] prints a message only for the two loading errors. *)
Theorem main_exit_status env r :
  Run.main env = Some r ->
  (Run.status r = 0 \/ Run.status r = EXIT_FAILURE)
  /\ (Run.status r = EXIT_FAILURE ->
      Run.output_states r = None /\ Run.output_controls r = None)
  /\ (Run.status r = 0 <->
      exists c,
        Main.main (Run.reference_file env) = Some (Main.Configured c)
        /\ Run.init (Main.sim c) (Main.x0 c) = true
        /\ Run.run (Main.sim c) (Main.x0 c) = true)
  /\ (Run.stderr r <> ""%string <->
      exists text,
        Main.main (Run.reference_file env)
        = Some (Main.Exit text EXIT_FAILURE)).
Proof.
  unfold Run.main.
  destruct (Main.main (Run.reference_file env)) as [[text st|c]|] eqn:Hm;
    [| |discriminate]; simpl.
  - destruct (main_exit_inv _ _ _ Hm) as [-> Htext]. intros [= <-]. simpl.
    split; [now right|]. split; [easy|]. split; [|split; eauto].
    split; [discriminate|]. intros (c & [=] & _).
  - unfold Run.simulate.
    destruct (Run.init (Main.sim c) (Main.x0 c)) eqn:Hinit; simpl.
    2:{ intros [= <-]. simpl. split; [now right|]. split; [easy|].
        split; [|split; [easy|intros (? & [=])]].
        split; [discriminate|]. intros (c' & [= <-] & Hi & _). congruence. }
    destruct (Run.run (Main.sim c) (Main.x0 c)) eqn:Hrun; simpl.
    2:{ intros [= <-]. simpl. split; [now right|]. split; [easy|].
        split; [|split; [easy|intros (? & [=])]].
        split; [discriminate|]. intros (c' & [= <-] & _ & Hr). congruence. }
    destruct (Run.write_states _ _) as [os|]; [|discriminate]. simpl.
    destruct (Run.write_controls _ _) as [oc|]; [|discriminate]. simpl.
    intros [= <-]. simpl. split; [now left|]. split; [discriminate|].
    split; [|split; [easy|intros (? & [=])]].
    split; [eauto|reflexivity].
Qed.

(** X11: the two output files.  When [main] returns 0, each output file
    that could be opened holds one line per point of the grid read back
    from the simulation, in order, up to the bound the grid reports (which
    does not exceed the number of points): a state is written as its first
    three components, a control as its first two, separated by one blank
    and ended by a newline.  A file that could not be opened holds
    nothing of the run. *)
Theorem output_files_hold_one_line_per_point env r :
  Run.main env = Some r ->
  Run.status r = 0 ->
  exists c n m,
    Main.main (Run.reference_file env) = Some (Main.Configured c)
    /\ let states :=
         Run.getProcessDifferentialStates (Main.sim c) (Main.x0 c) in
       let controls := Run.getFeedbackControl (Main.sim c) (Main.x0 c) in
       Run.bound states = Some n
       /\ Run.bound controls = Some m
       /\ (Z.to_nat n <= length (vg_values states))%nat
       /\ (Z.to_nat m <= length (vg_values controls))%nat
       /\ Run.output_states r =
          (if Run.states_file_opens env
           then Some (concat (map Run.states_line
                                  (take (Z.to_nat n) (vg_values states))))
           else None)
       /\ Run.output_controls r =
          (if Run.controls_file_opens env
           then Some (concat (map Run.controls_line
                                  (take (Z.to_nat m) (vg_values controls))))
           else None).
Proof.
  unfold Run.main.
  destruct (Main.main (Run.reference_file env)) as [[text st|c]|] eqn:Hm;
    [| |discriminate]; simpl.
  { destruct (main_exit_inv _ _ _ Hm) as [-> _]. now intros [= <-]. }
  unfold Run.simulate.
  destruct (Run.init (Main.sim c) (Main.x0 c)); simpl;
    [|now intros [= <-]].
  destruct (Run.run (Main.sim c) (Main.x0 c)); simpl;
    [|now intros [= <-]].
  destruct (Run.write_states _ _) as [os|] eqn:Hos; [|discriminate].
  destruct (Run.write_controls _ _) as [oc|] eqn:Hoc; [|discriminate].
  simpl. intros [= <-] _. simpl.
  apply write_states_sound in Hos as (n & Hn & Hnle & _ & ->).
  apply write_controls_sound in Hoc as (m & Hm' & Hmle & _ & ->).
  exists c, n, m. split; [reflexivity|]. cbv zeta.
  rewrite !file_of_write. auto 10.
Qed.

(** X12: an output file that cannot be opened is not an error.  Whether
    the two output files can be opened changes neither the exit status nor
    what is printed: a run that returns 0 does so as well when a file
    could not be opened, and then leaves nothing in it. *)
Theorem unopened_output_file_is_not_reported env r states_opens
    controls_opens :
  Run.main env = Some r ->
  exists r',
    Run.main {| Run.reference_file := Run.reference_file env;
                Run.states_file_opens := states_opens;
                Run.controls_file_opens := controls_opens |} = Some r'
    /\ Run.status r' = Run.status r
    /\ Run.stderr r' = Run.stderr r
    /\ (Run.status r = 0 -> states_opens = false ->
        Run.output_states r' = None)
    /\ (Run.status r = 0 -> controls_opens = false ->
        Run.output_controls r' = None).
Proof.
  unfold Run.main. simpl.
  destruct (Main.main (Run.reference_file env)) as [[text st|c]|] eqn:Hm;
    [| |discriminate]; simpl.
  { destruct (main_exit_inv _ _ _ Hm) as [-> _]. intros [= <-].
    eexists. split; [reflexivity|]. simpl. repeat split; discriminate. }
  unfold Run.simulate. simpl.
  destruct (Run.init (Main.sim c) (Main.x0 c)); simpl.
  2:{ intros [= <-]. eexists. split; [reflexivity|]. simpl.
      repeat split; discriminate. }
  destruct (Run.run (Main.sim c) (Main.x0 c)); simpl.
  2:{ intros [= <-]. eexists. split; [reflexivity|]. simpl.
      repeat split; discriminate. }
  rewrite !write_states_texts, !write_controls_texts.
  destruct (Run.bound (Run.getProcessDifferentialStates _ _)) as [n|];
    [|discriminate]. simpl.
  match goal with |- context [mapM ?f ?l] =>
    destruct (mapM f l) as [ts|]; [|discriminate] end. simpl.
  destruct (Run.bound (Run.getFeedbackControl _ _)) as [m|];
    [|discriminate]. simpl.
  match goal with |- context [mapM ?f ?l] =>
    destruct (mapM f l) as [tc|]; [|discriminate] end. simpl.
  intros [= <-]. eexists. split; [reflexivity|]. simpl.
  rewrite !file_of_write.
  repeat split; intros _ ->; reflexivity.
Qed.

(** X13: a grid that reports no rows or no columns makes the loop bound
    divide by zero.  After a successful simulation, if the states grid or
    the controls grid reports 0 for [getNumRows()] or [getNumCols()], the
    behaviour of [main] is undefined. *)
Theorem zero_grid_size_is_undefined env c :
  Main.main (Run.reference_file env) = Some (Main.Configured c) ->
  Run.init (Main.sim c) (Main.x0 c) = true ->
  Run.run (Main.sim c) (Main.x0 c) = true ->
  let states := Run.getProcessDifferentialStates (Main.sim c) (Main.x0 c) in
  let controls := Run.getFeedbackControl (Main.sim c) (Main.x0 c) in
  Run.getNumRows states = 0 \/ Run.getNumCols states = 0
  \/ Run.getNumRows controls = 0 \/ Run.getNumCols controls = 0 ->
  Run.main env = None.
Proof.
  intros Hm Hinit Hrun states controls Hzero.
  unfold Run.main. rewrite Hm. simpl. unfold Run.simulate.
  rewrite Hinit, Hrun. simpl. fold states controls.
  assert (Hbound : forall g,
            Run.getNumRows g = 0 \/ Run.getNumCols g = 0 ->
            Run.bound g = None).
  { intros g [Hg|Hg]; unfold Run.bound, Run.udiv; rewrite Hg; simpl;
      [reflexivity|]. now destruct (Run.getNumRows g =? 0). }
  destruct Hzero as [Hz|[Hz|Hz]].
  - unfold Run.write_states, Run.for_int.
    now rewrite (Hbound states (or_introl Hz)).
  - unfold Run.write_states, Run.for_int.
    now rewrite (Hbound states (or_intror Hz)).
  - destruct (Run.write_states states _); simpl; [|reflexivity].
    unfold Run.write_controls, Run.for_int. now rewrite (Hbound controls Hz).
Qed.

Lemma skipws_length l : (length (Cxx.skipws l) <= length l)%nat.
Proof.
  induction l as [|c l IH]; simpl; [lia|].
  destruct (Cxx.isspace c); simpl; lia.
Qed.

Lemma file_lines_line l t :
  Forall (fun c => Cxx.is_newline c = false) l ->
  Main.file_lines (l ++ "010"%char :: t) = l :: Main.file_lines t.
Proof.
  induction 1 as [|c l Hc _ IH]; [reflexivity|].
  simpl. now rewrite Hc, IH.
Qed.

Lemma reads_back_field v n rest :
  Run.reads_back v ->
  match rest with [] => True | c :: _ => Cxx.isspace c = true end ->
  Main.numeric_fields (S n) (Run.put_double v ++ rest)
  = v :: Main.numeric_fields n rest.
Proof.
  intros [_ Hv] Hrest. destruct (Hv rest Hrest) as [Hskip Hget].
  simpl. rewrite Hskip.
  destruct (Run.put_double v ++ rest) as [|c s] eqn:Hs.
  - pose proof (Hv [" "%char] eq_refl) as [Hblank _].
    apply app_eq_nil in Hs as [Hs _]. now rewrite Hs in Hblank.
  - now rewrite Hget.
Qed.

Lemma states_line_reads_back a b c :
  Run.reads_back a -> Run.reads_back b -> Run.reads_back c ->
  exists body,
    Run.states_line [a; b; c] = body ++ Run.newline
    /\ Forall (fun c => Cxx.is_newline c = false) body
    /\ Main.parse_line body = [a; b; c].
Proof.
  intros Ha Hb Hc.
  exists (Run.put_double a ++ Run.space ++ Run.put_double b ++ Run.space
            ++ Run.put_double c).
  split; [unfold Run.states_line; rewrite <- ?app_assoc; reflexivity|].
  split.
  - destruct Ha as [Ha _], Hb as [Hb _], Hc as [Hc _].
    repeat (apply Forall_app; split); try assumption;
      repeat constructor.
  - rewrite parse_line_fields.
    rewrite (reads_back_field a 2
               (Run.space ++ Run.put_double b ++ Run.space
                  ++ Run.put_double c) Ha eq_refl).
    change (Main.numeric_fields 2 (Run.space ++ ?s))
      with (Main.numeric_fields 2 s).
    rewrite (reads_back_field b 1 (Run.space ++ Run.put_double c) Hb eq_refl).
    change (Main.numeric_fields 1 (Run.space ++ ?s))
      with (Main.numeric_fields 1 s).
    rewrite <- (app_nil_r (Run.put_double c)).
    rewrite (reads_back_field c 0 [] Hc I). reflexivity.
Qed.

Lemma states_lines_reload (rows : list (list double)) :
  Forall (fun row => length row = 3%nat /\ Forall Run.reads_back row) rows ->
  map Main.parse_line
      (Main.file_lines (concat (map Run.states_line rows))) = rows.
Proof.
  induction 1 as [|row rows [Hlen Hrow] _ IH]; [reflexivity|].
  destruct row as [|a [|b [|c [|]]]]; try discriminate.
  apply Forall_cons in Hrow as [Ha Hrow].
  apply Forall_cons in Hrow as [Hb Hrow].
  apply Forall_cons in Hrow as [Hc _].
  destruct (states_line_reads_back a b c Ha Hb Hc)
    as (body & Hline & Hbody & Hparse).
  change (map Run.states_line ([a; b; c] :: rows))
    with (Run.states_line [a; b; c] :: map Run.states_line rows).
  rewrite concat_cons, Hline, <- app_assoc.
  change (Run.newline ++ ?t) with ("010"%char :: t).
  rewrite (file_lines_line body _ Hbody). simpl map. now rewrite Hparse, IH.
Qed.

(** X14: the states file has the format of the reference file.  When the
    writing loop has written a whole grid of three-component states to an
    opened file, and every number written is read back to itself by the
    reading facet, loading the text written gives back exactly the states,
    one waypoint per state. *)
Theorem states_file_can_be_loaded_back g os :
  Run.write_states g (Run.ofstream_open true) = Some os ->
  Run.bound g = Some (Z.of_nat (length (vg_values g))) ->
  Forall (fun row => length row = 3%nat /\ Forall Run.reads_back row)
         (vg_values g) ->
  exists st,
    Main.load (Run.written os) = Some st
    /\ Main.ld_ref_states st = vg_values g
    /\ Main.ld_num_waypoints st = Z.of_nat (length (vg_values g)).
Proof.
  intros Hos Hbound Hrows.
  apply write_states_sound in Hos as (n & Hn & _ & Hfit & ->).
  rewrite Hbound in Hn. injection Hn as <-.
  rewrite Nat2Z.id in *. rewrite take_ge by lia. simpl Run.written.
  pose proof (states_lines_reload _ Hrows) as Hreload.
  assert (Hcount : length (Main.file_lines
                     (concat (map Run.states_line (vg_values g))))
                   = length (vg_values g)).
  { rewrite <- Hreload at 2. now rewrite length_map. }
  destruct (load_defined (concat (map Run.states_line (vg_values g))))
    as [st Hst]; [now rewrite Hcount|].
  destruct (load_sound _ st Hst) as (Hrs & Hnw & _).
  exists st. rewrite Hrs, Hnw, Hreload, Hcount. auto.
Qed.

End Simulation.

(** * The further properties on example files *)

Lemma blank_lines_give_zero_waypoints_witness :
  exists st,
    @Main.load Cxx.decimal_num_get Examples.with_blank_line = Some st
    /\ Main.file_lines Examples.with_blank_line !! 1%nat = Some []
    /\ Main.ld_ref_states st !! 1%nat = Some [0; 0; 0]%float.
Proof.
  destruct (@load_defined Cxx.decimal_num_get Examples.with_blank_line)
    as [st Hst]; [vm_compute; discriminate|].
  exists st. split; [exact Hst|]. split; [reflexivity|].
  exact (@blank_lines_give_zero_waypoints Cxx.decimal_num_get
           Examples.with_blank_line st 1 [] Hst eq_refl (List.Forall_nil _)).
Defined.

Lemma leading_blanks_are_skipped_witness :
  let ws := list_ascii_of_string "  " in
  let line := list_ascii_of_string "4 5" in
  Forall (fun c => Cxx.isspace c = true) ws
  /\ @Main.parse_line Cxx.decimal_num_get (ws ++ line) = [4; 5; 0]%float.
Proof.
  intros ws line.
  assert (Hws : Forall (fun c => Cxx.isspace c = true) ws)
    by (repeat constructor).
  split; [exact Hws|].
  rewrite (@leading_blanks_are_skipped Cxx.decimal_num_get ws line Hws).
  vm_compute. reflexivity.
Defined.

Lemma waypoint_count_counts_newlines_witness :
  exists st,
    @Main.load Cxx.decimal_num_get Examples.three_lines = Some st
    /\ Main.ld_num_waypoints st = 3
    /\ length (List.filter Cxx.is_newline Examples.three_lines) = 2%nat.
Proof.
  destruct (@load_defined Cxx.decimal_num_get Examples.three_lines)
    as [st Hst]; [vm_compute; discriminate|].
  exists st. split; [exact Hst|].
  destruct (@waypoint_count_counts_newlines Cxx.decimal_num_get
              Examples.three_lines st Hst) as [Hn _].
  split; [rewrite Hn|]; vm_compute; reflexivity.
Defined.

Lemma final_newline_is_optional_witness :
  exists st st',
    @Main.load Cxx.decimal_num_get Examples.three_lines = Some st
    /\ last Examples.three_lines = Some "0"%char
    /\ @Main.load Cxx.decimal_num_get (Examples.three_lines ++ ["010"%char])
       = Some st'
    /\ Main.ld_ref_states st' = Main.ld_ref_states st.
Proof.
  destruct (@load_defined Cxx.decimal_num_get Examples.three_lines)
    as [st Hst]; [vm_compute; discriminate|].
  destruct (@final_newline_is_optional Cxx.decimal_num_get
              Examples.three_lines "0"%char st eq_refl eq_refl Hst)
    as (st' & Hst' & Hrs & _).
  exists st, st'. auto.
Defined.

Lemma blank_last_line_adds_zero_waypoint_witness :
  exists st st',
    @Main.load Cxx.decimal_num_get Examples.newline_ended = Some st
    /\ @Main.load Cxx.decimal_num_get
         (Examples.newline_ended ++ ["010"%char]) = Some st'
    /\ Main.ld_ref_states st'
       = Main.ld_ref_states st ++ [[0; 0; 0]%float].
Proof.
  destruct (@load_defined Cxx.decimal_num_get Examples.newline_ended)
    as [st Hst]; [vm_compute; discriminate|].
  destruct (@load_defined Cxx.decimal_num_get
              (Examples.newline_ended ++ ["010"%char]))
    as [st' Hst']; [vm_compute; discriminate|].
  exists st, st'. split; [exact Hst|]. split; [exact Hst'|].
  exact (proj1 (@blank_last_line_adds_zero_waypoint Cxx.decimal_num_get
                  Examples.newline_ended st st' eq_refl Hst Hst')).
Defined.

Lemma loading_composes_witness :
  exists st st1 st2,
    @Main.load Cxx.decimal_num_get
      (Examples.one_line ++ "010"%char :: Examples.three_lines) = Some st
    /\ @Main.load Cxx.decimal_num_get (Examples.one_line ++ ["010"%char])
       = Some st1
    /\ @Main.load Cxx.decimal_num_get Examples.three_lines = Some st2
    /\ Main.ld_ref_states st
       = Main.ld_ref_states st1 ++ Main.ld_ref_states st2.
Proof.
  destruct (@load_defined Cxx.decimal_num_get
              (Examples.one_line ++ "010"%char :: Examples.three_lines))
    as [st Hst]; [vm_compute; discriminate|].
  destruct (@loading_composes Cxx.decimal_num_get Examples.one_line
              Examples.three_lines st Hst)
    as (st1 & st2 & H1 & H2 & Hrs & _).
  exists st, st1, st2. auto.
Defined.

Lemma main_is_defined_iff_count_fits_witness :
  Z.of_nat (length (Main.file_lines Examples.three_lines)) <= INT_MAX
  /\ is_Some (@Main.main Cxx.decimal_num_get (Some Examples.three_lines)).
Proof.
  assert (Hfit : Z.of_nat (length (Main.file_lines Examples.three_lines))
                 <= INT_MAX) by (vm_compute; discriminate).
  split; [exact Hfit|].
  exact (proj2 (@main_is_defined_iff_count_fits Cxx.decimal_num_get
                  Examples.three_lines) Hfit).
Defined.

Lemma one_line_file_has_infinite_horizon_witness :
  length (Main.file_lines Examples.one_line) = 1%nat
  /\ exists c,
       @Main.main Cxx.decimal_num_get (Some Examples.one_line)
         = Some (Main.Configured c)
       /\ Main.tEnd c = infinity
       /\ ACADO.vg_values (ACADO.ctl_reference (Main.controller c)) = [].
Proof.
  split; [reflexivity|].
  destruct (@one_line_file_has_infinite_horizon Cxx.decimal_num_get
              Examples.one_line eq_refl)
    as (c & Hc & Hend & _ & _ & _ & Hgrid).
  exists c. auto.
Defined.

Lemma initial_state_is_first_reference_point_witness :
  exists c,
    @Main.main Cxx.decimal_num_get (Some Examples.three_lines)
      = Some (Main.Configured c)
    /\ 2 <= Main.num_waypoints c
    /\ ACADO.vg_values (Main.reference_grid c) !! 0%nat = Some (Main.x0 c).
Proof.
  eexists. split; [vm_compute; reflexivity|].
  split; [vm_compute; discriminate|].
  apply (@initial_state_is_first_reference_point Cxx.decimal_num_get
           (Some Examples.three_lines));
    [vm_compute; reflexivity|vm_compute; discriminate].
Defined.

Lemma main_exit_status_witness :
  exists r,
    @Run.main Examples.default_num_put Examples.replay_toolkit
      Cxx.decimal_num_get (Examples.environment Examples.three_lines)
    = Some r
    /\ (Run.status r = 0 \/ Run.status r = EXIT_FAILURE).
Proof.
  eexists. split; [vm_compute; reflexivity|].
  apply (@main_exit_status Examples.default_num_put Examples.replay_toolkit
           Cxx.decimal_num_get (Examples.environment Examples.three_lines)).
  vm_compute. reflexivity.
Defined.

Lemma output_files_hold_one_line_per_point_witness :
  exists r c n,
    @Run.main Examples.default_num_put Examples.replay_toolkit
      Cxx.decimal_num_get (Examples.environment Examples.three_lines)
    = Some r
    /\ Run.status r = 0
    /\ @Run.bound Examples.replay_toolkit
         (@Run.getProcessDifferentialStates Examples.replay_toolkit
            (Main.sim c) (Main.x0 c)) = Some n
    /\ Run.output_states r =
       Some (concat (map (@Run.states_line Examples.default_num_put)
                         (take (Z.to_nat n)
                            (ACADO.vg_values
                               (@Run.getProcessDifferentialStates
                                  Examples.replay_toolkit
                                  (Main.sim c) (Main.x0 c)))))).
Proof.
  destruct (@Run.main Examples.default_num_put Examples.replay_toolkit
              Cxx.decimal_num_get (Examples.environment Examples.three_lines))
    as [r|] eqn:Hr; [|vm_compute in Hr; discriminate].
  assert (Hstatus : Run.status r = 0)
    by (vm_compute in Hr; injection Hr as <-; reflexivity).
  destruct (@output_files_hold_one_line_per_point
              Examples.default_num_put Examples.replay_toolkit
              Cxx.decimal_num_get _ r Hr Hstatus)
    as (c & n & m & _ & Hn & _ & _ & _ & Hstates & _).
  exists r, c, n. auto.
Defined.

Lemma unopened_output_file_is_not_reported_witness :
  exists r',
    @Run.main Examples.default_num_put Examples.replay_toolkit
      Cxx.decimal_num_get
      {| Run.reference_file := Some Examples.three_lines;
         Run.states_file_opens := false;
         Run.controls_file_opens := true |} = Some r'
    /\ Run.status r' = 0
    /\ Run.output_states r' = None.
Proof.
  destruct (@Run.main Examples.default_num_put Examples.replay_toolkit
              Cxx.decimal_num_get (Examples.environment Examples.three_lines))
    as [r|] eqn:Hr; [|vm_compute in Hr; discriminate].
  assert (Hstatus : Run.status r = 0)
    by (vm_compute in Hr; injection Hr as <-; reflexivity).
  destruct (@unopened_output_file_is_not_reported
              Examples.default_num_put Examples.replay_toolkit
              Cxx.decimal_num_get _ r false true Hr)
    as (r' & Hr' & Hs & _ & Hnone & _).
  exists r'. split; [exact Hr'|]. split; [congruence|auto].
Defined.

Lemma zero_grid_size_is_undefined_witness :
  exists c,
    @Main.main Cxx.decimal_num_get (Some Examples.one_line)
      = Some (Main.Configured c)
    /\ @Run.getNumRows Examples.replay_toolkit
         (@Run.getProcessDifferentialStates Examples.replay_toolkit
            (Main.sim c) (Main.x0 c)) = 0
    /\ @Run.main Examples.default_num_put Examples.replay_toolkit
         Cxx.decimal_num_get (Examples.environment Examples.one_line) = None.
Proof.
  eexists. split; [vm_compute; reflexivity|]. split; [reflexivity|].
  apply (@zero_grid_size_is_undefined Examples.default_num_put
           Examples.replay_toolkit Cxx.decimal_num_get
           (Examples.environment Examples.one_line) _
           ltac:(vm_compute; reflexivity) eq_refl eq_refl).
  left. reflexivity.
Defined.

Lemma isspace_not_digit c : Cxx.isspace c = true -> Cxx.digit_val c = None.
Proof.
  destruct c as [[] [] [] [] [] [] [] []]; vm_compute; congruence.
Qed.

Lemma isspace_not_mark c :
  Cxx.isspace c = true -> Cxx.is_point c = false /\ Cxx.is_e c = false.
Proof.
  destruct c as [[] [] [] [] [] [] [] []]; vm_compute; auto; discriminate.
Qed.

Lemma decimal_get_digit d z c rest :
  Cxx.digit_val d = Some z ->
  Ascii.eqb d "-"%char = false ->
  Ascii.eqb d "+"%char = false ->
  Cxx.isspace c = true ->
  Cxx.decimal_num_get (d :: c :: rest) = Cxx.convert false z 0 (c :: rest).
Proof.
  intros Hd Hminus Hplus Hc. unfold Cxx.decimal_num_get, Cxx.scan_sign.
  rewrite Hminus, Hplus. cbn [Cxx.scan_digits]. rewrite Hd.
  rewrite (isspace_not_digit c Hc).
  destruct (isspace_not_mark c Hc) as [-> ->].
  rewrite Z.mul_0_r, !Z.add_0_l. reflexivity.
Qed.

Ltac digit_reads_back d z :=
  split; [vm_compute; repeat constructor|];
  intros [|c rest] Hrest; [split; vm_compute; reflexivity|];
  split; [reflexivity|];
  exact (decimal_get_digit d z c rest eq_refl eq_refl eq_refl Hrest).

Lemma small_integers_read_back v :
  In v [0; 1; 2; 3; 4; 5]%float ->
  @Run.reads_back Examples.default_num_put Cxx.decimal_num_get v.
Proof.
  intros Hv. simpl in Hv.
  destruct Hv as [<-|[<-|[<-|[<-|[<-|[<-|[]]]]]]].
  - digit_reads_back "0"%char 0.
  - digit_reads_back "1"%char 1.
  - digit_reads_back "2"%char 2.
  - digit_reads_back "3"%char 3.
  - digit_reads_back "4"%char 4.
  - digit_reads_back "5"%char 5.
Qed.

Lemma states_file_can_be_loaded_back_witness :
  exists os st,
    @Run.write_states Examples.default_num_put Examples.replay_toolkit
      Examples.two_states (Run.ofstream_open true) = Some os
    /\ Run.written os
       = list_ascii_of_string ("1 2 3" ++ Main.endl ++ "4 5 0" ++ Main.endl)
    /\ @Main.load Cxx.decimal_num_get (Run.written os) = Some st
    /\ Main.ld_ref_states st = ACADO.vg_values Examples.two_states.
Proof.
  destruct (@Run.write_states Examples.default_num_put
              Examples.replay_toolkit Examples.two_states
              (Run.ofstream_open true))
    as [os|] eqn:Hos; [|vm_compute in Hos; discriminate].
  destruct (@states_file_can_be_loaded_back Examples.default_num_put
              Examples.replay_toolkit Cxx.decimal_num_get
              Examples.two_states os Hos eq_refl)
    as (st & Hst & Hrs & _).
  { repeat (constructor; [split; [reflexivity|]|]);
      repeat constructor; apply small_integers_read_back; simpl; auto 10. }
  exists os, st. split; [reflexivity|].
  split; [vm_compute in Hos; injection Hos as <-; reflexivity|]. auto.
Defined.
